(** * github-mcp: request / validate / parse / error pipeline

    A shallow embedding of the Python sources under [src/gh] and [src/tools]
    together with the properties stated about them.

    Conventions of the embedding.
    - A Python [str] is a Rocq [string]; a character stands for the code point
      of the same number (0..255).
    - A decoded JSON value is a [JSON] term; Python's [None] is [JNull],
      a [dict] is an association list in insertion order.
    - A Python float is an IEEE binary64 value, [spec_float].
    - A Python [int] is a [Z] with fewer digits than the interpreter's limit
      for conversion to text, so that [str(n)] is always defined.
    - Code that can raise returns a [result]; the asynchronous tools run in
      the monad [Op], which threads the log of dispatched requests and reads
      the transport. *)

From Stdlib Require Import String Ascii List ZArith NArith Bool Lia.
From Stdlib Require Import DecimalString.
From Stdlib Require Import Floats.SpecFloat.
Import ListNotations.

Set Warnings "-register-all".

Local Open Scope string_scope.
Local Open Scope Z_scope.

(* ================================================================== *)
(** ** Python strings                                                    *)
(* ================================================================== *)

Module PyStr.

Definition code (c : ascii) : N := N_of_ascii c.

Definition between (lo hi : N) (c : ascii) : bool :=
  (N.leb lo (code c)) && (N.leb (code c) hi).

Definition ch (n : nat) : ascii := ascii_of_nat n.

Definition NUL : ascii := ch 0.
Definition TAB : ascii := ch 9.
Definition LF : ascii := ch 10.
Definition CR : ascii := ch 13.
Definition DQUOTE : ascii := ch 34.
Definition SQUOTE : ascii := ch 39.
Definition BSLASH : ascii := ch 92.

Definition is_digit (c : ascii) : bool := between 48 57 c.
Definition is_upper (c : ascii) : bool := between 65 90 c.
Definition is_lower (c : ascii) : bool := between 97 122 c.
Definition is_alnum (c : ascii) : bool := is_lower c || is_upper c || is_digit c.

(** [c in s] for a one-character [c]. *)
Fixpoint contains_char (c : ascii) (s : string) : bool :=
  match s with
  | EmptyString => false
  | String x t => Ascii.eqb x c || contains_char c t
  end.

(** [s.startswith(p)]. *)
Definition startswith (p s : string) : bool := String.prefix p s.

(** [needle in hay] on two strings: substring test. *)
Fixpoint contains (needle hay : string) : bool :=
  String.prefix needle hay
  || match hay with
     | EmptyString => false
     | String _ t => contains needle t
     end.

(** [not s]: the empty string is the only falsy one. *)
Definition is_empty (s : string) : bool :=
  match s with EmptyString => true | _ => false end.

(** [sep.join(parts)]. *)
Fixpoint join (sep : string) (parts : list string) : string :=
  match parts with
  | [] => EmptyString
  | [p] => p
  | p :: rest => p ++ sep ++ join sep rest
  end.

(** The list of one-character strings a [for] loop over a string yields. *)
Fixpoint chars (s : string) : list string :=
  match s with
  | EmptyString => []
  | String c t => String c EmptyString :: chars t
  end.

Fixpoint flat_map_chars (f : ascii -> string) (s : string) : string :=
  match s with
  | EmptyString => EmptyString
  | String c t => f c ++ flat_map_chars f t
  end.

(** [str(n)] for an [int]. *)
Definition of_Z (z : Z) : string := NilZero.string_of_int (Z.to_int z).

Definition hex_digit (upper : bool) (n : N) : ascii :=
  if N.ltb n 10 then ascii_of_N (48 + n)
  else ascii_of_N ((if upper then 55 else 87) + n).

Definition hex2 (upper : bool) (n : N) : string :=
  String (hex_digit upper (N.div n 16))
    (String (hex_digit upper (N.modulo n 16)) EmptyString).

(** [str.isprintable] on the code points below 256. *)
Definition is_printable (c : ascii) : bool :=
  between 32 126 c || (between 161 255 c && negb (N.eqb (code c) 173)).

Definition repr_char (quote c : ascii) : string :=
  if Ascii.eqb c quote || Ascii.eqb c BSLASH then String BSLASH (String c EmptyString)
  else if Ascii.eqb c TAB then String BSLASH "t"
  else if Ascii.eqb c LF then String BSLASH "n"
  else if Ascii.eqb c CR then String BSLASH "r"
  else if is_printable c then String c EmptyString
  else String BSLASH ("x" ++ hex2 false (code c)).

(** [repr(s)]: single quotes unless the text has a single quote and no
    double quote; escapes for the quote, the backslash and what does not
    print. *)
Definition repr (s : string) : string :=
  let quote :=
    if contains_char SQUOTE s && negb (contains_char DQUOTE s)
    then DQUOTE else SQUOTE in
  String quote (flat_map_chars (repr_char quote) s ++ String quote EmptyString).

(** Whitespace [int()] skips around a literal. *)
Definition is_int_space (c : ascii) : bool :=
  between 9 13 c || N.eqb (code c) 32 || N.eqb (code c) 133 || N.eqb (code c) 160.

Fixpoint lstrip (s : string) : string :=
  match s with
  | String c t => if is_int_space c then lstrip t else s
  | EmptyString => EmptyString
  end.

Fixpoint all_space (s : string) : bool :=
  match s with
  | String c t => is_int_space c && all_space t
  | EmptyString => true
  end.

(** Digits with single underscores between them; stops at the first other
    character.  Gives the value, the number of digits and the rest. *)
Fixpoint scan_digits (s : string) (prev_us : bool) (acc : Z) (n : N)
  : option (Z * N * string) :=
  match s with
  | String c t =>
      if is_digit c
      then scan_digits t false (10 * acc + Z.of_N (code c - 48)) (N.succ n)
      else if Ascii.eqb c (ch 95)
           then if prev_us then None else scan_digits t true acc n
           else if prev_us then None else Some (acc, n, s)
  | EmptyString => if prev_us then None else Some (acc, n, EmptyString)
  end.

(** CPython's default [sys.int_max_str_digits]. *)
Definition int_max_str_digits : N := 4300.

(** [int(s)] in base 10; [None] stands for the [ValueError]. *)
Definition to_Z (s : string) : option Z :=
  let s1 := lstrip s in
  let '(neg, s2) :=
    match s1 with
    | String c t =>
        if Ascii.eqb c (ch 45) then (true, t)
        else if Ascii.eqb c (ch 43) then (false, t)
        else (false, s1)
    | EmptyString => (false, s1)
    end in
  match s2 with
  | String c _ =>
      if Ascii.eqb c (ch 95) then None
      else
        match scan_digits s2 false 0 0 with
        | Some (v, n, rest) =>
            if N.eqb n 0 then None
            else if negb (all_space rest) then None
            else if N.ltb int_max_str_digits n then None
            else Some (if neg then - v else v)
        | None => None
        end
  | EmptyString => None
  end.

End PyStr.

(* ================================================================== *)
(** ** Exceptions and results                                            *)
(* ================================================================== *)

(** Exceptions the interpreter itself raises; their messages are not part of
    the model. *)
Inductive builtin_exn : Type :=
| TypeError
| BuiltinValueError
| AttributeError
| KeyError
| IndexError
| OverflowError.

(** [ValueError] and [RuntimeError] are what the guards and the tools raise,
    with the message they build.  The specification calls the first one
    ValidationError and the second one RemoteOperationError. *)
Inductive exn : Type :=
| ValueError (msg : string)
| RuntimeError (msg : string)
| Builtin (e : builtin_exn).

Inductive result (A : Type) : Type :=
| Return (a : A)
| Raise (e : exn).

Arguments Return {A} a.
Arguments Raise {A} e.

Definition bind {A B : Type} (r : result A) (k : A -> result B) : result B :=
  match r with
  | Return a => k a
  | Raise e => Raise e
  end.

Declare Scope result_scope.
Delimit Scope result_scope with result.
Notation "x <- r ;; k" := (bind r (fun x => k))
  (at level 61, r at next level, right associativity) : result_scope.
Notation "' p <- r ;; k" := (bind r (fun p => k))
  (at level 61, p pattern, r at next level, right associativity) : result_scope.

(** A list comprehension [[f(x) for x in l]] whose body can raise: the
    elements are evaluated from left to right and the first exception ends
    the loop. *)
Fixpoint map_result {A B : Type} (f : A -> result B) (l : list A) : result (list B) :=
  match l with
  | [] => Return []
  | x :: rest =>
      bind (f x) (fun y => bind (map_result f rest) (fun ys => Return (y :: ys)))
  end.

(** [except (TypeError, ValueError)]. *)
Definition is_type_or_value_error (e : exn) : bool :=
  match e with
  | ValueError _ => true
  | Builtin TypeError => true
  | Builtin BuiltinValueError => true
  | _ => false
  end.

(* ================================================================== *)
(** ** JSON values and the builtins applied to them                      *)
(* ================================================================== *)

(** [JSONValue] of [gh/types.py]: what the transport hands back after
    decoding. *)
Inductive JSON : Type :=
| JNull
| JBool (b : bool)
| JInt (z : Z)
| JFloat (f : spec_float)
| JStr (s : string)
| JArr (l : list JSON)
| JObj (d : list (string * JSON)).

Definition JSONObject : Type := list (string * JSON).

(** [isinstance(v, dict)], [isinstance(v, list)], [isinstance(v, bool)]. *)
Definition is_dict (v : JSON) : bool :=
  match v with JObj _ => true | _ => false end.

Definition is_list (v : JSON) : bool :=
  match v with JArr _ => true | _ => false end.

Definition is_none (v : JSON) : bool :=
  match v with JNull => true | _ => false end.

(** [d.get(k)] on a dict; [None] when the key is missing. *)
Fixpoint dict_get {A : Type} (d : list (string * A)) (k : string) : option A :=
  match d with
  | [] => None
  | (k', v) :: rest => if String.eqb k' k then Some v else dict_get rest k
  end.

(** [k in d]. *)
Definition has_key {A : Type} (d : list (string * A)) (k : string) : bool :=
  match dict_get d k with Some _ => true | None => false end.

(** [d[k] = v]: a present key keeps its place, a new one goes last. *)
Fixpoint dict_set {A : Type} (d : list (string * A)) (k : string) (v : A)
  : list (string * A) :=
  match d with
  | [] => [(k, v)]
  | (k', v') :: rest =>
      if String.eqb k' k then (k', v) :: rest else (k', v') :: dict_set rest k v
  end.

(** [v.get(k, default)]: only a dict has the method. *)
Definition get_or (v : JSON) (k : string) (default : JSON) : result JSON :=
  match v with
  | JObj d => Return (match dict_get d k with Some x => x | None => default end)
  | _ => Raise (Builtin AttributeError)
  end.

(** [v.get(k)]. *)
Definition get (v : JSON) (k : string) : result JSON := get_or v k JNull.

(** Truth value of a JSON value, as [bool(v)], [if v] and [not v] see it. *)
Definition truthy (v : JSON) : bool :=
  match v with
  | JNull => false
  | JBool b => b
  | JInt z => negb (Z.eqb z 0)
  | JFloat (S754_zero _) => false
  | JFloat _ => true
  | JStr s => negb (PyStr.is_empty s)
  | JArr l => match l with [] => false | _ => true end
  | JObj d => match d with [] => false | _ => true end
  end.

(** [int(f)] on a float: truncation toward zero; the infinities and NaN
    have no integer value. *)
Definition int_of_float (f : spec_float) : result Z :=
  match f with
  | S754_zero _ => Return 0
  | S754_infinity _ => Raise (Builtin OverflowError)
  | S754_nan => Raise (Builtin BuiltinValueError)
  | S754_finite s m e =>
      let mag := if Z.leb 0 e then Z.pos m * 2 ^ e else Z.pos m / 2 ^ (- e) in
      Return (if s then - mag else mag)
  end.

(** [int(v)]. *)
Definition py_int (v : JSON) : result Z :=
  match v with
  | JNull => Raise (Builtin TypeError)
  | JBool b => Return (if b then 1 else 0)
  | JInt z => Return z
  | JFloat f => int_of_float f
  | JStr s =>
      match PyStr.to_Z s with
      | Some z => Return z
      | None => Raise (Builtin BuiltinValueError)
      end
  | JArr _ => Raise (Builtin TypeError)
  | JObj _ => Raise (Builtin TypeError)
  end.

(** [needle in v] for a string [needle]: key of a dict, element of a list,
    substring of a string; any other value is not a container. *)
Definition py_in (needle : string) (v : JSON) : result bool :=
  match v with
  | JObj d => Return (has_key d needle)
  | JArr l =>
      Return (existsb (fun x => match x with
                                | JStr s => String.eqb s needle
                                | _ => false
                                end) l)
  | JStr s => Return (PyStr.contains needle s)
  | _ => Raise (Builtin TypeError)
  end.

(** What [for x in v] iterates over. *)
Definition py_iter (v : JSON) : result (list JSON) :=
  match v with
  | JArr l => Return l
  | JObj d => Return (map (fun kv => JStr (fst kv)) d)
  | JStr s => Return (map JStr (PyStr.chars s))
  | _ => Raise (Builtin TypeError)
  end.

(** [v[0]]. *)
Definition item0 (v : JSON) : result JSON :=
  match v with
  | JArr (x :: _) => Return x
  | JArr [] => Raise (Builtin IndexError)
  | JStr (String c _) => Return (JStr (String c EmptyString))
  | JStr EmptyString => Raise (Builtin IndexError)
  | JObj _ => Raise (Builtin KeyError)
  | _ => Raise (Builtin TypeError)
  end.

Section Runtime.

(** [repr] of a finite non-zero float is the interpreter's shortest decimal
    that reads back as the same float; the printer is a parameter of the
    development. *)
Variable float_repr : spec_float -> string.

(** [repr(v)]. *)
Fixpoint py_repr (v : JSON) : string :=
  match v with
  | JNull => "None"
  | JBool true => "True"
  | JBool false => "False"
  | JInt z => PyStr.of_Z z
  | JFloat f => float_repr f
  | JStr s => PyStr.repr s
  | JArr l => "[" ++ PyStr.join ", " (map py_repr l) ++ "]"
  | JObj d =>
      "{" ++ PyStr.join ", "
               (map (fun kv => match kv with
                               | (k, x) => PyStr.repr k ++ ": " ++ py_repr x
                               end) d) ++ "}"
  end.

(** [str(v)]: the text itself for a string, [repr] otherwise. *)
Definition py_str (v : JSON) : string :=
  match v with
  | JStr s => s
  | _ => py_repr v
  end.

(* ================================================================== *)
(** ** gh/guards.py                                                      *)
(* ================================================================== *)

(** The class [[a-zA-Z0-9._-]] of [_NAME_RE]. *)
Definition name_char (c : ascii) : bool :=
  PyStr.is_alnum c
  || Ascii.eqb c (PyStr.ch 46) || Ascii.eqb c (PyStr.ch 95) || Ascii.eqb c (PyStr.ch 45).

(** [[a-zA-Z0-9._-]*$] from the current position.  In Python's [re], [$]
    matches at the end of the text and also just before a line feed that is
    the last character. *)
Fixpoint name_tail (s : string) : bool :=
  match s with
  | EmptyString => true
  | String c t =>
      if name_char c then name_tail t
      else Ascii.eqb c PyStr.LF && PyStr.is_empty t
  end.

(** [_NAME_RE.match(s)] for [^[a-zA-Z0-9][a-zA-Z0-9._-]*$]. *)
Definition _NAME_RE_match (s : string) : bool :=
  match s with
  | EmptyString => false
  | String c t => PyStr.is_alnum c && name_tail t
  end.

Definition validate_owner (owner : string) : result unit :=
  if PyStr.is_empty owner || negb (_NAME_RE_match owner)
  then Raise (ValueError ("Invalid GitHub owner: " ++ PyStr.repr owner))
  else Return tt.

Definition validate_repo (repo : string) : result unit :=
  if PyStr.is_empty repo || negb (_NAME_RE_match repo)
  then Raise (ValueError ("Invalid repository name: " ++ PyStr.repr repo))
  else Return tt.

Definition validate_owner_repo (owner repo : string) : result unit :=
  bind (validate_owner owner) (fun _ => validate_repo repo).

Definition validate_path (path : string) : result unit :=
  if PyStr.is_empty path then Raise (ValueError "File path cannot be empty")
  else if PyStr.contains_char PyStr.NUL path
       then Raise (ValueError "File path cannot contain null bytes")
       else if PyStr.startswith "/" path
            then Raise (ValueError "File path must be relative")
            else Return tt.

Definition validate_ref (ref : string) : result unit :=
  if PyStr.is_empty ref then Raise (ValueError "Git ref cannot be empty")
  else if PyStr.contains_char PyStr.NUL ref
       then Raise (ValueError "Git ref cannot contain null bytes")
       else Return tt.

(* ================================================================== *)
(** ** The transport and the monad of the tools                          *)
(* ================================================================== *)

Inductive HttpMethod : Type := GET | POST | PUT | PATCH | DELETE.

Record HttpRequest : Type := mkRequest {
  req_method : HttpMethod;
  req_path : string;
  req_body : option JSONObject
}.

(** What [ctx.dispatch] of the transport library answers: a flag, the
    response when there is one (its [body] is [None] for an empty payload)
    and the error when there is one. *)
Record HttpResponse : Type := mkResponse { body : JSON }.

Record DispatchError : Type := mkDispatchError { message : string }.

Record DispatchResponse : Type := mkDispatch {
  dr_success : bool;
  dr_response : option HttpResponse;
  dr_error : option DispatchError
}.

(** The transport answers a request knowing the requests sent before. *)
Definition Transport : Type := list HttpRequest -> HttpRequest -> DispatchResponse.

(** A tool reads the transport, threads the log of the requests dispatched
    so far and returns or raises. *)
Definition Op (A : Type) : Type :=
  Transport -> list HttpRequest -> result A * list HttpRequest.

Definition op_ret {A : Type} (a : A) : Op A := fun _ log => (Return a, log).

Definition op_raise {A : Type} (e : exn) : Op A := fun _ log => (Raise e, log).

Definition op_lift {A : Type} (r : result A) : Op A := fun _ log => (r, log).

Definition op_bind {A B : Type} (m : Op A) (k : A -> Op B) : Op B :=
  fun T log =>
    match m T log with
    | (Return a, log') => k a T log'
    | (Raise e, log') => (Raise e, log')
    end.

Declare Scope op_scope.
Delimit Scope op_scope with op.
Notation "x <- m ;; k" := (op_bind m (fun x => k))
  (at level 61, m at next level, right associativity) : op_scope.

(** [await ctx.dispatch(github, req)]: one call of the transport. *)
Definition dispatch (req : HttpRequest) : Op DispatchResponse :=
  fun T log => (Return (T log req), (log ++ [req])%list).

(** The requests a tool dispatches when started on an empty log. *)
Definition dispatched {A : Type} (op : Op A) (T : Transport) : list HttpRequest :=
  snd (op T []).

Definition outcome {A : Type} (op : Op A) (T : Transport) : result A :=
  fst (op T []).

(* ================================================================== *)
(** ** gh/types.py                                                       *)
(* ================================================================== *)

Record GhResult : Type := mkGhResult {
  success : bool;
  data : JSON;
  error : option string
}.

Record RepoInfo : Type := mkRepoInfo {
  repo_name : string;
  repo_full_name : string;
  repo_description : option string;
  repo_private : bool;
  repo_stars : Z;
  repo_language : option string;
  repo_default_branch : string;
  repo_updated_at : option string
}.

Record IssueInfo : Type := mkIssueInfo {
  issue_number : Z;
  issue_title : string;
  issue_state : string;
  issue_author : option string;
  issue_labels : list string;
  issue_created_at : option string
}.

Record PrInfo : Type := mkPrInfo {
  pr_number : Z;
  pr_title : string;
  pr_state : string;
  pr_head : string;
  pr_base : string;
  pr_author : option string;
  pr_draft : bool;
  pr_mergeable : option bool
}.

Record PrFileInfo : Type := mkPrFileInfo {
  file_filename : string;
  file_status : string;
  file_additions : Z;
  file_deletions : Z;
  file_changes : Z
}.

Record WorkflowJobStep : Type := mkWorkflowJobStep {
  step_name : string;
  step_status : string;
  step_conclusion : option string;
  step_number : Z
}.

Record WorkflowJobInfo : Type := mkWorkflowJobInfo {
  job_id : Z;
  job_name : string;
  job_status : string;
  job_conclusion : option string;
  job_steps : list WorkflowJobStep
}.

Record CiDiagnosisInfo : Type := mkCiDiagnosisInfo {
  run_id : Z;
  run_name : option string;
  status : option string;
  conclusion : option string;
  branch : option string;
  jobs : list WorkflowJobInfo;
  failed_jobs : list WorkflowJobInfo
}.

Record CommitInfo : Type := mkCommitInfo {
  commit_sha : string;
  commit_message : string;
  commit_author : option string;
  commit_date : option string
}.

Record CompareInfo : Type := mkCompareInfo {
  cmp_status : string;
  cmp_ahead_by : Z;
  cmp_behind_by : Z;
  cmp_total_commits : Z;
  cmp_files : list PrFileInfo;
  cmp_commits : list CommitInfo
}.

(* ================================================================== *)
(** ** gh/request.py                                                     *)
(* ================================================================== *)

Local Open Scope op_scope.

(** The two cases of [request] on what the transport answered: a success
    needs both the flag and a response object. *)
Definition result_of_dispatch (resp : DispatchResponse) : GhResult :=
  match dr_success resp, dr_response resp with
  | true, Some r => mkGhResult true (body r) None
  | _, _ =>
      let error_ := match dr_error resp with
                    | Some e => message e
                    | None => "Request failed"
                    end in
      mkGhResult false JNull (Some error_)
  end.

(** [request(method, path, body)]: exactly one dispatch. *)
Definition request (method : HttpMethod) (path : string) (body_ : option JSONObject)
  : Op GhResult :=
  resp <- dispatch (mkRequest method path body_) ;;
  op_ret (result_of_dispatch resp).

(** A query parameter of [build_url]: [str | int | bool | None]. *)
Inductive param : Type :=
| PNone
| PStr (s : string)
| PInt (z : Z)
| PBool (b : bool).

(** [str(val).lower() if isinstance(val, bool) else str(val)]. *)
Definition render_param (val : param) : string :=
  match val with
  | PNone => "None"
  | PStr s => s
  | PInt z => PyStr.of_Z z
  | PBool true => "true"
  | PBool false => "false"
  end.

(** The characters [urllib.parse.quote] never escapes. *)
Definition always_safe (c : ascii) : bool :=
  PyStr.is_alnum c
  || Ascii.eqb c (PyStr.ch 95) || Ascii.eqb c (PyStr.ch 46)
  || Ascii.eqb c (PyStr.ch 45) || Ascii.eqb c (PyStr.ch 126).

(** UTF-8 bytes of a code point below 256. *)
Definition utf8 (c : ascii) : list N :=
  let n := PyStr.code c in
  if N.ltb n 128 then [n]
  else [N.add 192 (N.div n 64); N.add 128 (N.modulo n 64)].

Definition quote_plus_char (c : ascii) : string :=
  if always_safe c then String c EmptyString
  else if Ascii.eqb c (PyStr.ch 32) then "+"
  else String.concat EmptyString
         (map (fun b => String (PyStr.ch 37) (PyStr.hex2 true b)) (utf8 c)).

(** [urllib.parse.quote_plus(s)]. *)
Definition quote_plus (s : string) : string := PyStr.flat_map_chars quote_plus_char s.

(** [urllib.parse.urlencode(d)] on a dict of strings. *)
Definition urlencode (d : list (string * string)) : string :=
  PyStr.join "&" (map (fun kv => quote_plus (fst kv) ++ "=" ++ quote_plus (snd kv)) d).

(** The loop of [build_url] that fills [filtered]. *)
Fixpoint build_filtered (params : list (string * param)) (filtered : list (string * string))
  : list (string * string) :=
  match params with
  | [] => filtered
  | (key, val) :: rest =>
      match val with
      | PNone => build_filtered rest filtered
      | _ => build_filtered rest (dict_set filtered key (render_param val))
      end
  end.

Definition build_url (endpoint : string) (params : list (string * param)) : string :=
  let filtered := build_filtered params [] in
  match filtered with
  | [] => endpoint
  | _ => endpoint ++ "?" ++ urlencode filtered
  end.

Local Open Scope result_scope.

(** [_str(val, default)]. *)
Definition _str (val : JSON) (default : string) : string :=
  if is_none val then default else py_str val.

(** [_int(val, default)]: the handler catches [TypeError] and [ValueError]
    only. *)
Definition _int (val : JSON) (default : Z) : result Z :=
  if is_none val then Return default
  else match py_int val with
       | Return z => Return z
       | Raise e => if is_type_or_value_error e then Return default else Raise e
       end.

(** [_opt_str(val)]. *)
Definition _opt_str (val : JSON) : option string :=
  if is_none val then None else Some (py_str val).

(** [_bool(val, default=...)]. *)
Definition _bool (val : JSON) (default : bool) : bool :=
  if is_none val then default else truthy val.

(** [_nested_str(obj, key)]. *)
Definition _nested_str (obj : JSON) (key : string) : result (option string) :=
  if is_dict obj
  then (v <- get obj key ;; Return (_opt_str v))%result
  else Return None.

(** The comprehension of [_labels]. *)
Fixpoint labels_of (val : list JSON) : result (list string) :=
  match val with
  | [] => Return []
  | label :: rest =>
      keep <- (if is_dict label
               then (n <- get label "name" ;; Return (truthy n))
               else Return false) ;;
      if (keep : bool)
      then n <- get label "name" ;;
           names <- labels_of rest ;;
           Return (_str n EmptyString :: names)
      else labels_of rest
  end.

(** [_labels(val)]. *)
Definition _labels (val : JSON) : result (list string) :=
  match val with
  | JArr l => labels_of l
  | _ => Return []
  end.

(** [response.error or fallback]. *)
Definition error_or (r : GhResult) (fallback : string) : string :=
  match error r with
  | Some e => if PyStr.is_empty e then fallback else e
  | None => fallback
  end.

(** The statement every parsing tool runs after its dispatch:
    [if not response.success: raise RuntimeError(response.error or fallback)]. *)
Definition raise_unless_success (response : GhResult) (fallback : string) : Op unit :=
  if success response then op_ret tt
  else op_raise (RuntimeError (error_or response fallback)).

(** [x if isinstance(x, dict) else {}]. *)
Definition dict_or_empty (x : JSON) : JSON :=
  if is_dict x then x else JObj [].

(** [x if isinstance(x, list) else []]. *)
Definition list_or_empty (x : JSON) : list JSON :=
  match x with JArr l => l | _ => [] end.

(* ================================================================== *)
(** ** Statements shared by the tools                                    *)
(* ================================================================== *)

Local Open Scope op_scope.

(** [f"/repos/{owner}/{repo}"], the prefix of every repository path. *)
Definition repos_path (owner repo : string) : string :=
  "/repos/" ++ owner ++ "/" ++ repo.

(** [if x: payload[key] = x] for an optional string. *)
Definition set_if_truthy (payload : JSONObject) (key : string) (x : option string)
  : JSONObject :=
  match x with
  | Some s => if PyStr.is_empty s then payload else dict_set payload key (JStr s)
  | None => payload
  end.

(** [if x: payload[key] = x] for an optional list of strings. *)
Definition set_if_truthy_list (payload : JSONObject) (key : string)
  (x : option (list string)) : JSONObject :=
  match x with
  | Some l =>
      match l with
      | [] => payload
      | _ :: _ => dict_set payload key (JArr (map JStr l))
      end
  | None => payload
  end.

(** [if x: payload[key] = x] for an optional dict of strings. *)
Definition set_if_truthy_dict (payload : JSONObject) (key : string)
  (x : option (list (string * string))) : JSONObject :=
  match x with
  | Some d =>
      match d with
      | [] => payload
      | _ :: _ => dict_set payload key (JObj (map (fun kv => (fst kv, JStr (snd kv))) d))
      end
  | None => payload
  end.

(** [if x is not None: payload[key] = x] for an optional string. *)
Definition set_if_not_none (payload : JSONObject) (key : string) (x : option string)
  : JSONObject :=
  match x with
  | Some s => dict_set payload key (JStr s)
  | None => payload
  end.

(** [if x is not None: payload[key] = x] for an optional list of strings. *)
Definition set_if_not_none_list (payload : JSONObject) (key : string)
  (x : option (list string)) : JSONObject :=
  match x with
  | Some l => dict_set payload key (JArr (map JStr l))
  | None => payload
  end.

Definition opt_param (x : option string) : param :=
  match x with Some s => PStr s | None => PNone end.

(* ================================================================== *)
(** ** tools/issues.py                                                   *)
(* ================================================================== *)

Definition _parse_issue (raw : JSON) : result IssueInfo :=
  (v_number <- get raw "number" ;;
   number <- _int v_number 0 ;;
   v_title <- get raw "title" ;;
   v_state <- get raw "state" ;;
   v_user <- get raw "user" ;;
   author <- _nested_str v_user "login" ;;
   v_labels <- get raw "labels" ;;
   labels <- _labels v_labels ;;
   v_created <- get raw "created_at" ;;
   Return (mkIssueInfo number (_str v_title EmptyString) (_str v_state EmptyString)
             author labels (_opt_str v_created)))%result.

(** [[_parse_issue(item) for item in items if "pull_request" not in item]]. *)
Fixpoint issues_of (items : list JSON) : result (list IssueInfo) :=
  match items with
  | [] => Return []
  | item :: rest =>
      (is_pr <- py_in "pull_request" item ;;
       if (is_pr : bool) then issues_of rest
       else issue <- _parse_issue item ;;
            issues <- issues_of rest ;;
            Return (issue :: issues))%result
  end.

Definition gh_list_issues (owner repo state : string) (labels assignee : option string)
  (per_page page : Z) : Op (list IssueInfo) :=
  _ <- op_lift (validate_owner_repo owner repo) ;;
  let url := build_url (repos_path owner repo ++ "/issues")
               [("state", PStr state); ("labels", opt_param labels);
                ("assignee", opt_param assignee);
                ("per_page", PInt per_page); ("page", PInt page)] in
  response <- request GET url None ;;
  _ <- raise_unless_success response "Failed to list issues" ;;
  let items := list_or_empty (data response) in
  op_lift (issues_of items).

Definition gh_get_issue (owner repo : string) (issue_number_ : Z) : Op IssueInfo :=
  _ <- op_lift (validate_owner_repo owner repo) ;;
  response <- request GET (repos_path owner repo ++ "/issues/" ++ PyStr.of_Z issue_number_)
                None ;;
  _ <- raise_unless_success response "Failed to get issue" ;;
  op_lift (_parse_issue (dict_or_empty (data response))).

Definition gh_create_issue (owner repo title : string) (body_ : option string)
  (labels assignees : option (list string)) : Op IssueInfo :=
  _ <- op_lift (validate_owner_repo owner repo) ;;
  let payload := [("title", JStr title)] in
  let payload := set_if_truthy payload "body" body_ in
  let payload := set_if_truthy_list payload "labels" labels in
  let payload := set_if_truthy_list payload "assignees" assignees in
  response <- request POST (repos_path owner repo ++ "/issues") (Some payload) ;;
  _ <- raise_unless_success response "Failed to create issue" ;;
  op_lift (_parse_issue (dict_or_empty (data response))).

Definition gh_update_issue (owner repo : string) (issue_number_ : Z)
  (title body_ state : option string) (labels assignees : option (list string))
  : Op IssueInfo :=
  _ <- op_lift (validate_owner_repo owner repo) ;;
  let payload := [] in
  let payload := set_if_not_none payload "title" title in
  let payload := set_if_not_none payload "body" body_ in
  let payload := set_if_not_none payload "state" state in
  let payload := set_if_not_none_list payload "labels" labels in
  let payload := set_if_not_none_list payload "assignees" assignees in
  response <- request PATCH
                (repos_path owner repo ++ "/issues/" ++ PyStr.of_Z issue_number_)
                (Some payload) ;;
  _ <- raise_unless_success response "Failed to update issue" ;;
  op_lift (_parse_issue (dict_or_empty (data response))).

(* ================================================================== *)
(** ** tools/repos.py                                                    *)
(* ================================================================== *)

Definition _parse_repo (raw : JSON) : result RepoInfo :=
  (v_name <- get raw "name" ;;
   v_full <- get raw "full_name" ;;
   v_descr <- get raw "description" ;;
   v_private <- get raw "private" ;;
   v_stars <- get raw "stargazers_count" ;;
   stars <- _int v_stars 0 ;;
   v_lang <- get raw "language" ;;
   v_branch <- get raw "default_branch" ;;
   v_updated <- get raw "updated_at" ;;
   Return (mkRepoInfo (_str v_name EmptyString) (_str v_full EmptyString)
             (_opt_str v_descr) (_bool v_private false) stars (_opt_str v_lang)
             (_str v_branch "main") (_opt_str v_updated)))%result.

Definition gh_get_repo (owner repo : string) : Op RepoInfo :=
  _ <- op_lift (validate_owner_repo owner repo) ;;
  response <- request GET (repos_path owner repo) None ;;
  _ <- raise_unless_success response "Failed to get repo" ;;
  op_lift (_parse_repo (dict_or_empty (data response))).

Definition gh_create_ref (owner repo ref sha : string) : Op GhResult :=
  _ <- op_lift (validate_owner_repo owner repo) ;;
  let payload := [("ref", JStr ref); ("sha", JStr sha)] in
  request POST (repos_path owner repo ++ "/git/refs") (Some payload).

Definition gh_delete_branch (owner repo branch_ : string) : Op GhResult :=
  _ <- op_lift (validate_owner_repo owner repo) ;;
  if PyStr.is_empty branch_
  then op_raise (ValueError "Branch name cannot be empty")
  else request DELETE (repos_path owner repo ++ "/git/refs/heads/" ++ branch_) None.

Definition parse_file_entry (entry : JSON) : result PrFileInfo :=
  (v_filename <- get entry "filename" ;;
   v_status <- get entry "status" ;;
   v_add <- get entry "additions" ;;
   additions <- _int v_add 0 ;;
   v_del <- get entry "deletions" ;;
   deletions <- _int v_del 0 ;;
   v_chg <- get entry "changes" ;;
   changes <- _int v_chg 0 ;;
   Return (mkPrFileInfo (_str v_filename EmptyString) (_str v_status EmptyString)
             additions deletions changes))%result.

(** The body of the commit loop of [gh_compare]. *)
Definition parse_commit_entry (entry : JSON) : result CommitInfo :=
  (raw_commit <- get entry "commit" ;;
   let commit_obj := dict_or_empty raw_commit in
   raw_author <- get commit_obj "author" ;;
   let commit_author_ := dict_or_empty raw_author in
   v_sha <- get entry "sha" ;;
   v_message <- get commit_obj "message" ;;
   v_author <- get entry "author" ;;
   author <- _nested_str v_author "login" ;;
   v_date <- get commit_author_ "date" ;;
   Return (mkCommitInfo (_str v_sha EmptyString) (_str v_message EmptyString)
             author (_opt_str v_date)))%result.

Definition gh_compare (owner repo base head : string) : Op CompareInfo :=
  _ <- op_lift (validate_owner_repo owner repo) ;;
  response <- request GET
                (repos_path owner repo ++ "/compare/" ++ base ++ "..." ++ head) None ;;
  _ <- raise_unless_success response
         ("Failed to compare " ++ base ++ "..." ++ head) ;;
  let data_ := dict_or_empty (data response) in
  op_lift
    (raw_files_val <- get data_ "files" ;;
     files <- map_result parse_file_entry (list_or_empty raw_files_val) ;;
     raw_commits_val <- get data_ "commits" ;;
     commits <- map_result parse_commit_entry (list_or_empty raw_commits_val) ;;
     v_status <- get data_ "status" ;;
     v_ahead <- get data_ "ahead_by" ;;
     ahead <- _int v_ahead 0 ;;
     v_behind <- get data_ "behind_by" ;;
     behind <- _int v_behind 0 ;;
     v_total <- get data_ "total_commits" ;;
     total <- _int v_total 0 ;;
     Return (mkCompareInfo (_str v_status EmptyString) ahead behind total
               files commits))%result.

(* ================================================================== *)
(** ** tools/pulls.py                                                    *)
(* ================================================================== *)

(** A [str | None] handed back to a coercion. *)
Definition json_of_opt (x : option string) : JSON :=
  match x with Some s => JStr s | None => JNull end.

Definition _parse_pr (raw : JSON) : result PrInfo :=
  (mergeable <- get raw "mergeable" ;;
   v_number <- get raw "number" ;;
   number <- _int v_number 0 ;;
   v_title <- get raw "title" ;;
   v_state <- get raw "state" ;;
   v_head <- get raw "head" ;;
   head <- _nested_str v_head "ref" ;;
   v_base <- get raw "base" ;;
   base <- _nested_str v_base "ref" ;;
   v_user <- get raw "user" ;;
   author <- _nested_str v_user "login" ;;
   v_draft <- get raw "draft" ;;
   Return (mkPrInfo number (_str v_title EmptyString) (_str v_state EmptyString)
             (_str (json_of_opt head) EmptyString) (_str (json_of_opt base) EmptyString)
             author (_bool v_draft false)
             (match mergeable with JBool b => Some b | _ => None end)))%result.

Definition gh_get_pr (owner repo : string) (pr_number_ : Z) : Op PrInfo :=
  _ <- op_lift (validate_owner_repo owner repo) ;;
  response <- request GET (repos_path owner repo ++ "/pulls/" ++ PyStr.of_Z pr_number_)
                None ;;
  _ <- raise_unless_success response "Failed to get PR" ;;
  op_lift (_parse_pr (dict_or_empty (data response))).

Definition gh_create_pr (owner repo title head base : string) (body_ : option string)
  (draft : bool) : Op PrInfo :=
  _ <- op_lift (validate_owner_repo owner repo) ;;
  let payload := [("title", JStr title); ("head", JStr head); ("base", JStr base);
                  ("draft", JBool draft)] in
  let payload := set_if_truthy payload "body" body_ in
  response <- request POST (repos_path owner repo ++ "/pulls") (Some payload) ;;
  _ <- raise_unless_success response "Failed to create PR" ;;
  op_lift (_parse_pr (dict_or_empty (data response))).

Definition gh_update_pr (owner repo : string) (pr_number_ : Z)
  (title body_ state base : option string) : Op PrInfo :=
  _ <- op_lift (validate_owner_repo owner repo) ;;
  let payload := [] in
  let payload := set_if_not_none payload "title" title in
  let payload := set_if_not_none payload "body" body_ in
  let payload := set_if_not_none payload "state" state in
  let payload := set_if_not_none payload "base" base in
  match payload with
  | [] => op_raise
            (ValueError "At least one field (title, body, state, base) must be provided")
  | _ =>
      response <- request PATCH
                    (repos_path owner repo ++ "/pulls/" ++ PyStr.of_Z pr_number_)
                    (Some payload) ;;
      _ <- raise_unless_success response "Failed to update PR" ;;
      op_lift (_parse_pr (dict_or_empty (data response)))
  end.

Definition gh_merge_pr (owner repo : string) (pr_number_ : Z) (merge_method : string)
  (commit_title commit_message_ : option string) : Op GhResult :=
  _ <- op_lift (validate_owner_repo owner repo) ;;
  let payload := [("merge_method", JStr merge_method)] in
  let payload := set_if_truthy payload "commit_title" commit_title in
  let payload := set_if_truthy payload "commit_message" commit_message_ in
  request PUT (repos_path owner repo ++ "/pulls/" ++ PyStr.of_Z pr_number_ ++ "/merge")
    (Some payload).

(* ================================================================== *)
(** ** tools/files.py                                                    *)
(* ================================================================== *)

Definition gh_get_file (owner repo path : string) (ref : option string) : Op GhResult :=
  _ <- op_lift (validate_owner_repo owner repo) ;;
  _ <- op_lift (validate_path path) ;;
  let url := build_url (repos_path owner repo ++ "/contents/" ++ path)
               [("ref", opt_param ref)] in
  request GET url None.

Definition gh_put_file (owner repo path content_base64 message_ : string)
  (branch_ sha : option string) : Op GhResult :=
  _ <- op_lift (validate_owner_repo owner repo) ;;
  _ <- op_lift (validate_path path) ;;
  let body_ := [("message", JStr message_); ("content", JStr content_base64)] in
  let body_ := set_if_truthy body_ "branch" branch_ in
  let body_ := set_if_truthy body_ "sha" sha in
  request PUT (repos_path owner repo ++ "/contents/" ++ path) (Some body_).

Definition gh_delete_file (owner repo path message_ sha : string)
  (branch_ : option string) : Op GhResult :=
  _ <- op_lift (validate_owner_repo owner repo) ;;
  _ <- op_lift (validate_path path) ;;
  let body_ := [("message", JStr message_); ("sha", JStr sha)] in
  let body_ := set_if_truthy body_ "branch" branch_ in
  request DELETE (repos_path owner repo ++ "/contents/" ++ path) (Some body_).

(* ================================================================== *)
(** ** tools/commits.py                                                  *)
(* ================================================================== *)

Definition gh_get_commit_status (owner repo ref : string) : Op GhResult :=
  _ <- op_lift (validate_owner_repo owner repo) ;;
  _ <- op_lift (validate_ref ref) ;;
  request GET (repos_path owner repo ++ "/commits/" ++ ref ++ "/status") None.

(* ================================================================== *)
(** ** tools/actions.py                                                  *)
(* ================================================================== *)

(** [str(workflow_id)] for [workflow_id: int | str]. *)
Definition fmt_workflow_id (workflow_id : Z + string) : string :=
  match workflow_id with inl n => PyStr.of_Z n | inr s => s end.

Definition gh_dispatch_workflow (owner repo : string) (workflow_id : Z + string)
  (ref : string) (inputs : option (list (string * string))) : Op GhResult :=
  _ <- op_lift (validate_owner_repo owner repo) ;;
  let body_ := [("ref", JStr ref)] in
  let body_ := set_if_truthy_dict body_ "inputs" inputs in
  request POST
    (repos_path owner repo ++ "/actions/workflows/" ++ fmt_workflow_id workflow_id
       ++ "/dispatches")
    (Some body_).

Definition gh_rerun_workflow (owner repo : string) (run_id_ : Z) : Op GhResult :=
  _ <- op_lift (validate_owner_repo owner repo) ;;
  request POST (repos_path owner repo ++ "/actions/runs/" ++ PyStr.of_Z run_id_ ++ "/rerun")
    None.

Definition parse_step (step : JSON) : result WorkflowJobStep :=
  (v_name <- get step "name" ;;
   v_status <- get step "status" ;;
   v_conclusion <- get step "conclusion" ;;
   v_number <- get step "number" ;;
   number <- _int v_number 0 ;;
   Return (mkWorkflowJobStep (_str v_name EmptyString) (_str v_status EmptyString)
             (_opt_str v_conclusion) number))%result.

Definition _parse_job (raw : JSON) : result WorkflowJobInfo :=
  (v_steps <- get raw "steps" ;;
   raw_steps <- (if is_list v_steps then get_or raw "steps" (JArr [])
                 else Return (JArr [])) ;;
   step_items <- py_iter raw_steps ;;
   steps <- map_result parse_step step_items ;;
   v_id <- get raw "id" ;;
   id <- _int v_id 0 ;;
   v_name <- get raw "name" ;;
   v_status <- get raw "status" ;;
   v_conclusion <- get raw "conclusion" ;;
   Return (mkWorkflowJobInfo id (_str v_name EmptyString) (_str v_status EmptyString)
             (_opt_str v_conclusion) steps))%result.

(** [job.conclusion == "failure"]. *)
Definition is_failure (job : WorkflowJobInfo) : bool :=
  match job_conclusion job with
  | Some c => String.eqb c "failure"
  | None => false
  end.

(** [if run_id:] on [int | None]: zero is falsy like [None]. *)
Definition truthy_int (x : option Z) : option Z :=
  match x with
  | Some n => if Z.eqb n 0 then None else Some n
  | None => None
  end.

(** [elif branch:] on [str | None]: the empty text is falsy like [None]. *)
Definition truthy_text (x : option string) : option string :=
  match x with
  | Some s => if PyStr.is_empty s then None else Some s
  | None => None
  end.

(** The request of the branch-filtered run list. *)
Definition branch_runs_url (owner repo branch_ : string) : string :=
  build_url (repos_path owner repo ++ "/actions/runs")
    [("branch", PStr branch_); ("per_page", PInt 1)].

Definition gh_ci_diagnosis (owner repo : string) (run_id_ : option Z)
  (branch_ : option string) : Op CiDiagnosisInfo :=
  _ <- op_lift (validate_owner_repo owner repo) ;;
  run <- match truthy_int run_id_, truthy_text branch_ with
         | Some n, _ =>
             response <- request GET
                           (repos_path owner repo ++ "/actions/runs/" ++ PyStr.of_Z n)
                           None ;;
             _ <- raise_unless_success response ("Failed to get run " ++ PyStr.of_Z n) ;;
             op_ret (dict_or_empty (data response))
         | None, Some b =>
             response <- request GET (branch_runs_url owner repo b) None ;;
             _ <- raise_unless_success response
                    ("No runs found for branch " ++ PyStr.repr b) ;;
             runs <- op_lift (if is_dict (data response)
                              then get_or (data response) "workflow_runs" (JArr [])
                              else Return (JArr [])) ;;
             if truthy runs then op_lift (item0 runs)
             else op_raise
                    (RuntimeError ("No workflow runs found for branch " ++ PyStr.repr b))
         | None, None => op_raise (RuntimeError "Provide either run_id or branch")
         end ;;
  v_id <- op_lift (get run "id") ;;
  resolved_run_id <- op_lift (_int v_id 0) ;;
  response <- request GET
                (repos_path owner repo ++ "/actions/runs/" ++ PyStr.of_Z resolved_run_id
                   ++ "/jobs")
                None ;;
  _ <- raise_unless_success response "Failed to list jobs" ;;
  op_lift
    (raw_jobs <- (if is_dict (data response)
                  then get_or (data response) "jobs" (JArr [])
                  else Return (JArr [])) ;;
     job_items <- py_iter raw_jobs ;;
     jobs_ <- map_result _parse_job job_items ;;
     let failed := filter is_failure jobs_ in
     v_name <- get run "name" ;;
     v_status <- get run "status" ;;
     v_conclusion <- get run "conclusion" ;;
     v_branch <- get run "head_branch" ;;
     Return (mkCiDiagnosisInfo resolved_run_id (_opt_str v_name) (_opt_str v_status)
               (_opt_str v_conclusion) (_opt_str v_branch) jobs_ failed))%result.

(** [x if x else None] for an optional list: the empty list is falsy. *)
Definition truthy_list {A : Type} (x : option (list A)) : option (list A) :=
  match x with
  | Some l =>
      match l with
      | [] => None
      | _ :: _ => Some l
      end
  | None => None
  end.

(** The payload entries built from arguments of the tools. *)
Definition json_strings (l : list string) : JSON := JArr (map JStr l).

Definition json_string_dict (d : list (string * string)) : JSON :=
  JObj (map (fun kv => (fst kv, JStr (snd kv))) d).

(** A call sends exactly one request, with this method, path and payload. *)
Definition sends {A : Type} (op : Op A) (T : Transport) (log : list HttpRequest)
  (method : HttpMethod) (path : string) (payload : JSONObject) : Prop :=
  snd (op T log) = (log ++ [mkRequest method path (Some payload)])%list.

(** The transport reports a success and hands back a response with this
    payload ([JNull] when the response has no body). *)
Definition answers_with (resp : DispatchResponse) (payload : JSON) : Prop :=
  dr_success resp = true
  /\ exists r, dr_response resp = Some r /\ body r = payload.

(** An entry of the issue list that is an object with a [pull_request] key. *)
Definition carries_pull_request (item : JSON) : bool :=
  match item with
  | JObj d => has_key d "pull_request"
  | _ => false
  end.

(** Modelled on the wording of the specification of the URL builder, to be
    compared with [build_url]: booleans as lowercase tokens, every other
    value in its canonical text. *)
Definition render_spec (val : param) : string :=
  match val with
  | PBool b => if b then "true" else "false"
  | PStr s => s
  | PInt z => PyStr.of_Z z
  | PNone => "None"
  end.

Definition is_present (val : param) : bool :=
  match val with PNone => false | _ => true end.

(** Modelled on the wording of the specification, which asks for the
    url-encoded query string: the form encoding of [key=value] pairs joined
    by [&].  Letters, digits and [-], [.], [_], [~] stand for themselves, a
    space becomes [+], and every other character becomes, for each byte of
    its UTF-8 form, a percent sign and the two upper-case hexadecimal digits
    of the byte.  Nothing here uses the definitions that model [urllib]. *)
Definition unreserved_spec (n : N) : bool :=
  (N.leb 48 n && N.leb n 57) || (N.leb 65 n && N.leb n 90) || (N.leb 97 n && N.leb n 122)
  || N.eqb n 45 || N.eqb n 46 || N.eqb n 95 || N.eqb n 126.

Definition hex_digit_spec (n : N) : ascii :=
  match n with
  | 0 => "0" | 1 => "1" | 2 => "2" | 3 => "3" | 4 => "4" | 5 => "5" | 6 => "6"
  | 7 => "7" | 8 => "8" | 9 => "9" | 10 => "A" | 11 => "B" | 12 => "C" | 13 => "D"
  | 14 => "E" | _ => "F"
  end%N%char.

Definition percent_spec (byte : N) : string :=
  String "%" (String (hex_digit_spec (N.div byte 16))
                (String (hex_digit_spec (N.modulo byte 16)) EmptyString)).

Definition encode_char_spec (c : ascii) : string :=
  let n := N_of_ascii c in
  if unreserved_spec n then String c EmptyString
  else if N.eqb n 32 then "+"
  else if N.ltb n 128 then percent_spec n
  else (percent_spec (192 + N.div n 64) ++ percent_spec (128 + N.modulo n 64))%string.

Fixpoint encode_spec (s : string) : string :=
  match s with
  | EmptyString => EmptyString
  | String c rest => (encode_char_spec c ++ encode_spec rest)%string
  end.

Fixpoint query_spec (pairs : list (string * string)) : string :=
  match pairs with
  | [] => EmptyString
  | (k, v) :: rest =>
      match rest with
      | [] => (encode_spec k ++ "=" ++ encode_spec v)%string
      | _ :: _ => (encode_spec k ++ "=" ++ encode_spec v ++ "&" ++ query_spec rest)%string
      end
  end.

(** Modelled on the wording of the specification: drop the absent entries,
    render the others, return the endpoint alone when nothing is left and the
    endpoint, a question mark and the encoded query otherwise. *)
Definition build_url_spec (endpoint : string) (params : list (string * param)) : string :=
  let kept := filter (fun kv => is_present (snd kv)) params in
  let rendered := map (fun kv => (fst kv, render_spec (snd kv))) kept in
  match rendered with
  | [] => endpoint
  | _ => (endpoint ++ "?" ++ query_spec rendered)%string
  end.

(** The defaults of the two optional arguments of the write tools that are
    not [None]: [draft: bool = False] of [gh_create_pr] and
    [merge_method: str = "merge"] of [gh_merge_pr]. *)
Definition draft_default : bool := false.

Definition merge_method_default : string := "merge".

(** The records the parsers build from an empty object. *)
Definition default_issue : IssueInfo :=
  mkIssueInfo 0 EmptyString EmptyString None [] None.

Definition default_repo : RepoInfo :=
  mkRepoInfo EmptyString EmptyString None false 0 None "main" None.

Definition default_pr : PrInfo :=
  mkPrInfo 0 EmptyString EmptyString EmptyString EmptyString None false None.

(** The [name] of a label entry; [None] for what is not an object. *)
Definition name_field (label : JSON) : JSON :=
  match label with
  | JObj d => match dict_get d "name" with Some n => n | None => JNull end
  | _ => JNull
  end.

(* ================================================================== *)
(** ** The remaining records of gh/types.py                              *)
(* ================================================================== *)

Record UserInfo : Type := mkUserInfo {
  user_login : string;
  user_name : option string;
  user_email : option string
}.

Record BranchInfo : Type := mkBranchInfo {
  branch_name : string;
  branch_sha : string;
  branch_protected : bool
}.

Record CommentInfo : Type := mkCommentInfo {
  comment_id : Z;
  comment_author : option string;
  comment_body : string;
  comment_created_at : option string
}.

Record PrReviewInfo : Type := mkPrReviewInfo {
  review_id : Z;
  review_state : string;
  review_user : option string;
  review_body : string;
  review_submitted_at : option string
}.

Record WorkflowInfo : Type := mkWorkflowInfo {
  wf_id : Z;
  wf_name : string;
  wf_state : string
}.

Record WorkflowRunInfo : Type := mkWorkflowRunInfo {
  wr_id : Z;
  wr_name : option string;
  wr_status : option string;
  wr_conclusion : option string;
  wr_branch : option string;
  wr_created_at : option string
}.

Record CommitStatusInfo : Type := mkCommitStatusInfo {
  cs_state : string;
  cs_context : string;
  cs_description : option string
}.

Record CheckRunInfo : Type := mkCheckRunInfo {
  cr_id : Z;
  cr_name : string;
  cr_status : string;
  cr_conclusion : option string;
  cr_started_at : option string;
  cr_completed_at : option string
}.

Record SearchResult : Type := mkSearchResult {
  search_total_count : Z;
  search_incomplete_results : bool;
  search_items : list JSON
}.

(* ================================================================== *)
(** ** The remaining tools                                               *)
(* ================================================================== *)

(** [response.data.get(key, []) if isinstance(response.data, dict) else []],
    the value a list tool iterates over when the payload nests its entries. *)
Definition items_under (payload : JSON) (key : string) : result JSON :=
  if is_dict payload then get_or payload key (JArr []) else Return (JArr []).

(** *** tools/users.py *)

Definition gh_whoami : Op UserInfo :=
  response <- request GET "/user" None ;;
  _ <- raise_unless_success response "Failed to get user profile" ;;
  let data_ := dict_or_empty (data response) in
  op_lift
    (v_login <- get data_ "login" ;;
     v_name <- get data_ "name" ;;
     v_email <- get data_ "email" ;;
     Return (mkUserInfo (_str v_login EmptyString) (_opt_str v_name)
               (_opt_str v_email)))%result.

(** *** tools/repos.py *)

Definition gh_list_repos (per_page page : Z) : Op (list RepoInfo) :=
  let url := build_url "/user/repos"
               [("per_page", PInt per_page); ("page", PInt page);
                ("sort", PStr "updated")] in
  response <- request GET url None ;;
  _ <- raise_unless_success response "Failed to list repos" ;;
  op_lift (map_result _parse_repo (list_or_empty (data response))).

Definition parse_branch_entry (branch_ : JSON) : result BranchInfo :=
  (v_name <- get branch_ "name" ;;
   v_commit <- get branch_ "commit" ;;
   sha <- _nested_str v_commit "sha" ;;
   v_protected <- get branch_ "protected" ;;
   Return (mkBranchInfo (_str v_name EmptyString) (_str (json_of_opt sha) EmptyString)
             (_bool v_protected false)))%result.

Definition gh_list_branches (owner repo : string) (per_page page : Z)
  : Op (list BranchInfo) :=
  _ <- op_lift (validate_owner_repo owner repo) ;;
  let url := build_url (repos_path owner repo ++ "/branches")
               [("per_page", PInt per_page); ("page", PInt page)] in
  response <- request GET url None ;;
  _ <- raise_unless_success response "Failed to list branches" ;;
  op_lift (map_result parse_branch_entry (list_or_empty (data response))).

(** *** tools/issues.py *)

Definition _parse_comment (raw : JSON) : result CommentInfo :=
  (v_id <- get raw "id" ;;
   id <- _int v_id 0 ;;
   v_user <- get raw "user" ;;
   author <- _nested_str v_user "login" ;;
   v_body <- get raw "body" ;;
   v_created <- get raw "created_at" ;;
   Return (mkCommentInfo id author (_str v_body EmptyString) (_opt_str v_created)))%result.

Definition gh_list_comments (owner repo : string) (issue_number_ per_page page : Z)
  : Op (list CommentInfo) :=
  _ <- op_lift (validate_owner_repo owner repo) ;;
  let url := build_url
               (repos_path owner repo ++ "/issues/" ++ PyStr.of_Z issue_number_
                  ++ "/comments")
               [("per_page", PInt per_page); ("page", PInt page)] in
  response <- request GET url None ;;
  _ <- raise_unless_success response "Failed to list comments" ;;
  op_lift (map_result _parse_comment (list_or_empty (data response))).

Definition gh_create_comment (owner repo : string) (issue_number_ : Z) (body_ : string)
  : Op CommentInfo :=
  _ <- op_lift (validate_owner_repo owner repo) ;;
  response <- request POST
                (repos_path owner repo ++ "/issues/" ++ PyStr.of_Z issue_number_
                   ++ "/comments")
                (Some [("body", JStr body_)]) ;;
  _ <- raise_unless_success response "Failed to create comment" ;;
  op_lift (_parse_comment (dict_or_empty (data response))).

(** *** tools/pulls.py *)

Definition gh_list_prs (owner repo state : string) (per_page page : Z)
  : Op (list PrInfo) :=
  _ <- op_lift (validate_owner_repo owner repo) ;;
  let url := build_url (repos_path owner repo ++ "/pulls")
               [("state", PStr state); ("per_page", PInt per_page);
                ("page", PInt page)] in
  response <- request GET url None ;;
  _ <- raise_unless_success response "Failed to list PRs" ;;
  op_lift (map_result _parse_pr (list_or_empty (data response))).

Definition gh_list_pr_files (owner repo : string) (pr_number_ per_page page : Z)
  : Op (list PrFileInfo) :=
  _ <- op_lift (validate_owner_repo owner repo) ;;
  let url := build_url
               (repos_path owner repo ++ "/pulls/" ++ PyStr.of_Z pr_number_ ++ "/files")
               [("per_page", PInt per_page); ("page", PInt page)] in
  response <- request GET url None ;;
  _ <- raise_unless_success response "Failed to list PR files" ;;
  op_lift (map_result parse_file_entry (list_or_empty (data response))).

Definition parse_review_entry (review : JSON) : result PrReviewInfo :=
  (v_id <- get review "id" ;;
   id <- _int v_id 0 ;;
   v_state <- get review "state" ;;
   v_user <- get review "user" ;;
   user <- _nested_str v_user "login" ;;
   v_body <- get review "body" ;;
   v_submitted <- get review "submitted_at" ;;
   Return (mkPrReviewInfo id (_str v_state EmptyString) user (_str v_body EmptyString)
             (_opt_str v_submitted)))%result.

Definition gh_list_pr_reviews (owner repo : string) (pr_number_ per_page page : Z)
  : Op (list PrReviewInfo) :=
  _ <- op_lift (validate_owner_repo owner repo) ;;
  let url := build_url
               (repos_path owner repo ++ "/pulls/" ++ PyStr.of_Z pr_number_ ++ "/reviews")
               [("per_page", PInt per_page); ("page", PInt page)] in
  response <- request GET url None ;;
  _ <- raise_unless_success response "Failed to list PR reviews" ;;
  op_lift (map_result parse_review_entry (list_or_empty (data response))).

(** *** tools/commits.py *)

Definition gh_list_commits (owner repo : string) (sha path author : option string)
  (per_page page : Z) : Op (list CommitInfo) :=
  _ <- op_lift (validate_owner_repo owner repo) ;;
  let url := build_url (repos_path owner repo ++ "/commits")
               [("sha", opt_param sha); ("path", opt_param path);
                ("author", opt_param author);
                ("per_page", PInt per_page); ("page", PInt page)] in
  response <- request GET url None ;;
  _ <- raise_unless_success response "Failed to list commits" ;;
  op_lift (map_result parse_commit_entry (list_or_empty (data response))).

Definition parse_status_entry (entry : JSON) : result CommitStatusInfo :=
  (v_state <- get entry "state" ;;
   v_context <- get entry "context" ;;
   v_description <- get entry "description" ;;
   Return (mkCommitStatusInfo (_str v_state EmptyString) (_str v_context EmptyString)
             (_opt_str v_description)))%result.

Definition gh_list_commit_statuses (owner repo ref : string)
  : Op (list CommitStatusInfo) :=
  _ <- op_lift (validate_owner_repo owner repo) ;;
  _ <- op_lift (validate_ref ref) ;;
  response <- request GET (repos_path owner repo ++ "/commits/" ++ ref ++ "/statuses")
                None ;;
  _ <- raise_unless_success response "Failed to list commit statuses" ;;
  op_lift (map_result parse_status_entry (list_or_empty (data response))).

Definition parse_check_entry (check : JSON) : result CheckRunInfo :=
  (v_id <- get check "id" ;;
   id <- _int v_id 0 ;;
   v_name <- get check "name" ;;
   v_status <- get check "status" ;;
   v_conclusion <- get check "conclusion" ;;
   v_started <- get check "started_at" ;;
   v_completed <- get check "completed_at" ;;
   Return (mkCheckRunInfo id (_str v_name EmptyString) (_str v_status EmptyString)
             (_opt_str v_conclusion) (_opt_str v_started)
             (_opt_str v_completed)))%result.

Definition gh_list_check_runs (owner repo ref : string) (per_page page : Z)
  : Op (list CheckRunInfo) :=
  _ <- op_lift (validate_owner_repo owner repo) ;;
  _ <- op_lift (validate_ref ref) ;;
  let url := build_url (repos_path owner repo ++ "/commits/" ++ ref ++ "/check-runs")
               [("per_page", PInt per_page); ("page", PInt page)] in
  response <- request GET url None ;;
  _ <- raise_unless_success response "Failed to list check runs" ;;
  op_lift
    (items <- items_under (data response) "check_runs" ;;
     entries <- py_iter items ;;
     map_result parse_check_entry entries)%result.

(** *** tools/actions.py *)

Definition parse_workflow_entry (workflow : JSON) : result WorkflowInfo :=
  (v_id <- get workflow "id" ;;
   id <- _int v_id 0 ;;
   v_name <- get workflow "name" ;;
   v_state <- get workflow "state" ;;
   Return (mkWorkflowInfo id (_str v_name EmptyString) (_str v_state EmptyString)))%result.

Definition gh_list_workflows (owner repo : string) : Op (list WorkflowInfo) :=
  _ <- op_lift (validate_owner_repo owner repo) ;;
  response <- request GET (repos_path owner repo ++ "/actions/workflows") None ;;
  _ <- raise_unless_success response "Failed to list workflows" ;;
  op_lift
    (items <- items_under (data response) "workflows" ;;
     entries <- py_iter items ;;
     map_result parse_workflow_entry entries)%result.

Definition parse_run_entry (run : JSON) : result WorkflowRunInfo :=
  (v_id <- get run "id" ;;
   id <- _int v_id 0 ;;
   v_name <- get run "name" ;;
   v_status <- get run "status" ;;
   v_conclusion <- get run "conclusion" ;;
   v_branch <- get run "head_branch" ;;
   v_created <- get run "created_at" ;;
   Return (mkWorkflowRunInfo id (_opt_str v_name) (_opt_str v_status)
             (_opt_str v_conclusion) (_opt_str v_branch) (_opt_str v_created)))%result.

Definition gh_list_workflow_runs (owner repo : string) (workflow_id : option Z)
  (per_page : Z) : Op (list WorkflowRunInfo) :=
  _ <- op_lift (validate_owner_repo owner repo) ;;
  let path :=
    match truthy_int workflow_id with
    | Some w =>
        build_url (repos_path owner repo ++ "/actions/workflows/" ++ PyStr.of_Z w
                     ++ "/runs")
          [("per_page", PInt per_page)]
    | None =>
        build_url (repos_path owner repo ++ "/actions/runs") [("per_page", PInt per_page)]
    end in
  response <- request GET path None ;;
  _ <- raise_unless_success response "Failed to list workflow runs" ;;
  op_lift
    (items <- items_under (data response) "workflow_runs" ;;
     entries <- py_iter items ;;
     map_result parse_run_entry entries)%result.

(** *** tools/search.py *)

(** The body shared by [gh_search_code] and [gh_search_issues]. *)
Definition search (endpoint fallback q : string) (per_page page : Z) : Op SearchResult :=
  let url := build_url endpoint
               [("q", PStr q); ("per_page", PInt per_page); ("page", PInt page)] in
  response <- request GET url None ;;
  _ <- raise_unless_success response fallback ;;
  let data_ := dict_or_empty (data response) in
  op_lift
    (raw_items <- get data_ "items" ;;
     v_total <- get data_ "total_count" ;;
     total <- _int v_total 0 ;;
     v_incomplete <- get data_ "incomplete_results" ;;
     Return (mkSearchResult total (_bool v_incomplete false)
               (list_or_empty raw_items)))%result.

Definition gh_search_code (q : string) (per_page page : Z) : Op SearchResult :=
  search "/search/code" "Failed to search code" q per_page page.

Definition gh_search_issues (q : string) (per_page page : Z) : Op SearchResult :=
  search "/search/issues" "Failed to search issues" q per_page page.

(* ================================================================== *)
(** ** Vocabulary of the further properties                              *)
(* ================================================================== *)

(** Every character of a text passes a test. *)
Fixpoint all_chars (p : ascii -> bool) (s : string) : bool :=
  match s with
  | EmptyString => true
  | String c t => p c && all_chars p t
  end.

(** The characters of an encoded query: the unreserved ones and the four
    that [urlencode] writes itself. *)
Definition query_char (c : ascii) : bool :=
  always_safe c
  || Ascii.eqb c (PyStr.ch 43) || Ascii.eqb c (PyStr.ch 37)
  || Ascii.eqb c (PyStr.ch 38) || Ascii.eqb c (PyStr.ch 61).

(** The transport did not deliver: it reports a failure, or a success
    without a response object. *)
Definition refuses (resp : DispatchResponse) : Prop :=
  dr_success resp = false \/ dr_response resp = None.

(** The message of the [RuntimeError] a parsing tool raises then: the
    transport's message, the tool's own text when that message is empty, and
    the text of [request] when the transport gave no error object. *)
Definition failure_message (resp : DispatchResponse) (fallback : string) : string :=
  match dr_error resp with
  | Some e => if PyStr.is_empty (message e) then fallback else message e
  | None => "Request failed"
  end.

(** The first stage of [gh_ci_diagnosis], the [if run_id: ... elif branch:
    ... else: ...] statement that resolves the run. *)
Definition resolve_run (owner repo : string) (run_id_ : option Z)
  (branch_ : option string) : Op JSON :=
  match truthy_int run_id_, truthy_text branch_ with
  | Some n, _ =>
      response <- request GET
                    (repos_path owner repo ++ "/actions/runs/" ++ PyStr.of_Z n)%string
                    None ;;
      _ <- raise_unless_success response ("Failed to get run " ++ PyStr.of_Z n)%string ;;
      op_ret (dict_or_empty (data response))
  | None, Some b =>
      response <- request GET (branch_runs_url owner repo b) None ;;
      _ <- raise_unless_success response
             ("No runs found for branch " ++ PyStr.repr b)%string ;;
      runs <- op_lift (if is_dict (data response)
                       then get_or (data response) "workflow_runs" (JArr [])
                       else Return (JArr [])) ;;
      if truthy runs then op_lift (item0 runs)
      else op_raise
             (RuntimeError ("No workflow runs found for branch " ++ PyStr.repr b)%string)
  | None, None => op_raise (RuntimeError "Provide either run_id or branch")
  end.

(** The rest of [gh_ci_diagnosis], from the resolved run on: the request for
    the jobs and the construction of the diagnosis. *)
Definition diagnose_run (owner repo : string) (run : JSON) : Op CiDiagnosisInfo :=
  v_id <- op_lift (get run "id") ;;
  resolved_run_id <- op_lift (_int v_id 0) ;;
  response <- request GET
                (repos_path owner repo ++ "/actions/runs/" ++ PyStr.of_Z resolved_run_id
                   ++ "/jobs")%string
                None ;;
  _ <- raise_unless_success response "Failed to list jobs" ;;
  op_lift
    (raw_jobs <- (if is_dict (data response)
                  then get_or (data response) "jobs" (JArr [])
                  else Return (JArr [])) ;;
     job_items <- py_iter raw_jobs ;;
     jobs_ <- map_result _parse_job job_items ;;
     let failed := filter is_failure jobs_ in
     v_name <- get run "name" ;;
     v_status <- get run "status" ;;
     v_conclusion <- get run "conclusion" ;;
     v_branch <- get run "head_branch" ;;
     Return (mkCiDiagnosisInfo resolved_run_id (_opt_str v_name) (_opt_str v_status)
               (_opt_str v_conclusion) (_opt_str v_branch) jobs_ failed))%result.

(** A request of the diagnosis: a GET without a body. *)
Definition is_plain_get (r : HttpRequest) : Prop :=
  req_method r = GET /\ req_body r = None.

(** [d.get(k)] as a value: [None] for a missing key. *)
Definition field (d : JSONObject) (k : string) : JSON :=
  match dict_get d k with Some x => x | None => JNull end.

(** [v.get(k)] when [v] is an object, [None] otherwise. *)
Definition subfield (v : JSON) (k : string) : JSON :=
  match v with JObj d => field d k | _ => JNull end.

(** The commit record read off an entry of a commit list: the login of the
    entry's own [author], the message and the date of the nested [commit]. *)
Definition commit_of (entry : JSON) : CommitInfo :=
  mkCommitInfo
    (_str (subfield entry "sha") EmptyString)
    (_str (subfield (subfield entry "commit") "message") EmptyString)
    (match subfield entry "author" with
     | JObj a => _opt_str (field a "login")
     | _ => None
     end)
    (_opt_str (subfield (subfield (subfield entry "commit") "author") "date")).

(** The status record read off an entry of a status list. *)
Definition status_of (entry : JSON) : CommitStatusInfo :=
  mkCommitStatusInfo
    (_str (subfield entry "state") EmptyString)
    (_str (subfield entry "context") EmptyString)
    (_opt_str (subfield entry "description")).

(* ================================================================== *)
(** ** Payloads of the examples                                          *)
(* ================================================================== *)

(** Two commits: one by a platform user, one whose author has no account
    and whose nested [commit] is missing. *)
Definition example_commits : list JSON :=
  [JObj [("sha", JStr "a1b2c3");
         ("commit", JObj [("message", JStr "Fix the build");
                          ("author", JObj [("name", JStr "Mona Lisa");
                                           ("date", JStr "2026-01-02T03:04:05Z")])]);
         ("author", JObj [("login", JStr "octocat")])];
   JObj [("sha", JStr "d4e5f6"); ("author", JNull)]].

Definition example_statuses : list JSON :=
  [JObj [("state", JStr "success"); ("context", JStr "ci/build")]].

(** A job with two steps. *)
Definition example_job : JSONObject :=
  [("id", JInt 2); ("name", JStr "test");
   ("steps", JArr [JObj [("name", JStr "checkout"); ("number", JInt 1)];
                   JObj [("name", JStr "run-tests"); ("number", JInt 2)]])].

Definition example_search_payload : JSON :=
  JObj [("total_count", JInt 2); ("incomplete_results", JBool true);
        ("items", JArr [JObj [("path", JStr "README.md")]; JInt 7])].

(* ================================================================== *)
(** ** Scenarios                                                         *)
(* ================================================================== *)

(** The scenarios hold no float, so the printer of floats plays no part in
    them; this one is used to run the tools on them. *)
Definition plain_printer : spec_float -> string := fun _ => "nan".

(** Answers of a transport. *)
Definition ok (payload : JSON) : DispatchResponse :=
  mkDispatch true (Some (mkResponse payload)) None.

Definition refused (msg : string) : DispatchResponse :=
  mkDispatch false None (Some (mkDispatchError msg)).

(** The run and the jobs of the end-to-end scenario of the specification. *)
Definition scenario_run : JSON :=
  JObj [("id", JInt 42); ("name", JStr "CI"); ("status", JStr "completed");
        ("conclusion", JStr "failure"); ("head_branch", JStr "main")].

Definition scenario_jobs : JSON :=
  JObj [("jobs",
         JArr [JObj [("id", JInt 1); ("name", JStr "build"); ("status", JStr "completed");
                     ("conclusion", JStr "success"); ("steps", JArr [])];
               JObj [("id", JInt 2); ("name", JStr "test"); ("status", JStr "completed");
                     ("conclusion", JStr "failure");
                     ("steps",
                      JArr [JObj [("name", JStr "run-tests");
                                  ("status", JStr "completed");
                                  ("conclusion", JStr "failure");
                                  ("number", JInt 1)]])]])].

Definition scenario_transport : Transport :=
  fun _ req =>
    if String.eqb (req_path req) "/repos/octocat/hello/actions/runs/42"
    then ok scenario_run
    else if String.eqb (req_path req) "/repos/octocat/hello/actions/runs/42/jobs"
    then ok scenario_jobs
    else if String.eqb (req_path req)
              "/repos/octocat/hello/actions/runs?branch=main&per_page=1"
    then ok (JObj [("workflow_runs", JArr [scenario_run])])
    else refused "Not Found".

Definition scenario_build_job : WorkflowJobInfo :=
  mkWorkflowJobInfo 1 "build" "completed" (Some "success") [].

Definition scenario_test_job : WorkflowJobInfo :=
  mkWorkflowJobInfo 2 "test" "completed" (Some "failure")
    [mkWorkflowJobStep "run-tests" "completed" (Some "failure") 1].

Definition scenario_diagnosis : CiDiagnosisInfo :=
  mkCiDiagnosisInfo 42 (Some "CI") (Some "completed") (Some "failure") (Some "main")
    [scenario_build_job; scenario_test_job] [scenario_test_job].

(** A transport that answers every request with the same response. *)
Definition constant_transport (resp : DispatchResponse) : Transport :=
  fun _ _ => resp.

(** An issue list with one issue and one pull request. *)
Definition scenario_issue_list : list JSON :=
  [JObj [("number", JInt 1); ("title", JStr "Bug"); ("state", JStr "open");
         ("user", JObj [("login", JStr "octocat")]);
         ("labels", JArr [JObj [("name", JStr "bug")]])];
   JObj [("number", JInt 2); ("title", JStr "Fix"); ("state", JStr "open");
         ("pull_request", JObj [])]].

(* ================================================================== *)
(** * Properties                                                         *)
(* ================================================================== *)

(** ** Inversion of the two monads *)

Lemma bind_Return_inv {A B : Type} (r : result A) (k : A -> result B) (b : B) :
  bind r k = Return b -> exists a, r = Return a /\ k a = Return b.
Proof.
  destruct r as [a|e]; simpl; intros H; [eauto | discriminate].
Qed.

Lemma op_bind_Return_inv {A B : Type} (m : Op A) (k : A -> Op B) T log b log' :
  op_bind m k T log = (Return b, log') ->
  exists a log1, m T log = (Return a, log1) /\ k a T log1 = (Return b, log').
Proof.
  unfold op_bind. destruct (m T log) as [[a|e] log1]; intros H;
    [eauto | discriminate].
Qed.

Lemma op_lift_inv {A : Type} (r : result A) T log x log' :
  op_lift r T log = (x, log') -> r = x /\ log' = log.
Proof. unfold op_lift. intros H. inversion H. auto. Qed.

Ltac inv_op H :=
  let a := fresh "a" in
  let l := fresh "log" in
  let H1 := fresh "Hrun" in
  apply op_bind_Return_inv in H; destruct H as (a & l & H1 & H).

Ltac inv_res H :=
  let a := fresh "v" in
  let H1 := fresh "Hval" in
  apply bind_Return_inv in H; destruct H as (a & H1 & H).

(** ** Running the monad of the tools step by step *)

Lemma op_bind_assoc {A B C : Type} (m : Op A) (f : A -> Op B) (g : B -> Op C) T log :
  op_bind (op_bind m f) g T log = op_bind m (fun x => op_bind (f x) g) T log.
Proof.
  unfold op_bind. destruct (m T log) as [[a|e] log1]; [|reflexivity].
  destruct (f a T log1) as [[b|e] log2]; reflexivity.
Qed.

Lemma op_bind_ret {A B : Type} (a : A) (k : A -> Op B) T log :
  op_bind (op_ret a) k T log = k a T log.
Proof. reflexivity. Qed.

Lemma op_bind_raise {A B : Type} (e : exn) (k : A -> Op B) T log :
  op_bind (op_raise e) k T log = (Raise e, log).
Proof. reflexivity. Qed.

Lemma op_bind_lift_Return {A B : Type} (a : A) (k : A -> Op B) T log :
  op_bind (op_lift (Return a)) k T log = k a T log.
Proof. reflexivity. Qed.

Lemma op_bind_lift_Raise {A B : Type} (e : exn) (k : A -> Op B) T log :
  op_bind (op_lift (Raise e : result A)) k T log = (Raise e, log).
Proof. reflexivity. Qed.

Lemma request_run method path body_ T log :
  request method path body_ T log
  = (Return (result_of_dispatch (T log (mkRequest method path body_))),
     (log ++ [mkRequest method path body_])%list).
Proof. reflexivity. Qed.

Lemma op_bind_request {B : Type} method path body_ (k : GhResult -> Op B) T log :
  op_bind (request method path body_) k T log
  = k (result_of_dispatch (T log (mkRequest method path body_))) T
      (log ++ [mkRequest method path body_])%list.
Proof. reflexivity. Qed.

Lemma op_bind_raise_unless {B : Type} r fallback (k : unit -> Op B) T log :
  op_bind (raise_unless_success r fallback) k T log
  = if success r then k tt T log
    else (Raise (RuntimeError (error_or r fallback)), log).
Proof. unfold raise_unless_success. destruct (success r); reflexivity. Qed.

Lemma snd_op_lift {A : Type} (r : result A) T log : snd (op_lift r T log) = log.
Proof. reflexivity. Qed.

Lemma snd_op_bind_lift {A B : Type} (r : result A) (k : A -> Op B) T log :
  snd (op_bind (op_lift r) k T log)
  = match r with Return a => snd (k a T log) | Raise _ => log end.
Proof. destruct r; reflexivity. Qed.

(** ** C1: the partition of the CI diagnosis *)

Lemma filter_is_failure_In (l : list WorkflowJobInfo) (j : WorkflowJobInfo) :
  In j (filter is_failure l) <-> In j l /\ job_conclusion j = Some "failure".
Proof.
  rewrite filter_In. unfold is_failure.
  split; intros [Hin H]; split; auto.
  - destruct (job_conclusion j) as [c|]; [|discriminate].
    apply String.eqb_eq in H. now subst.
  - rewrite H. apply String.eqb_refl.
Qed.

(** C1. Whenever [gh_ci_diagnosis] returns a diagnosis, [failed_jobs] is the
    sublist of [jobs], in the same order, of the jobs whose conclusion is the
    text "failure": each failed job is a job with that conclusion, and a job
    that is not among the failed ones has another conclusion. *)
Theorem ci_diagnosis_partition :
  forall (T : Transport) (log log' : list HttpRequest) (owner repo : string)
         (run_id_ : option Z) (branch_ : option string) (info : CiDiagnosisInfo),
    gh_ci_diagnosis owner repo run_id_ branch_ T log = (Return info, log') ->
    failed_jobs info = filter is_failure (jobs info)
    /\ (forall j, In j (failed_jobs info) ->
                  In j (jobs info) /\ job_conclusion j = Some "failure")
    /\ (forall j, In j (jobs info) -> ~ In j (failed_jobs info) ->
                  job_conclusion j <> Some "failure").
Proof.
  intros T log log' owner repo rid br info H.
  assert (E : failed_jobs info = filter is_failure (jobs info)).
  { unfold gh_ci_diagnosis in H.
    do 6 inv_op H.
    apply op_lift_inv in H. destruct H as [H _].
    do 7 inv_res H.
    inversion H; subst info; reflexivity. }
  split; [exact E|]. rewrite E. split.
  - intros j Hj. now apply filter_is_failure_In.
  - intros j Hin Hnot Hc. apply Hnot. apply filter_is_failure_In. auto.
Qed.

(** ** C2: which request resolves the run *)

Lemma append_cancel_l (p a b : string) : (p ++ a = p ++ b)%string -> a = b.
Proof.
  induction p as [|c p IH]; simpl; intros H; [exact H|].
  inversion H. auto.
Qed.

Lemma append_assoc (a b c : string) : ((a ++ b) ++ c = a ++ b ++ c)%string.
Proof.
  induction a as [|x a IH]; simpl; [reflexivity | now rewrite IH].
Qed.

Lemma build_filtered_nonempty params k v rest :
  exists k' v' rest', build_filtered params ((k, v) :: rest) = (k', v') :: rest'.
Proof.
  revert k v rest. induction params as [|[key val] params IH]; intros k v rest; simpl.
  - eauto.
  - destruct val; auto; simpl; destruct (String.eqb k key); apply IH.
Qed.

Lemma branch_runs_url_shape owner repo b :
  exists q, branch_runs_url owner repo b
            = (repos_path owner repo ++ "/actions/runs?" ++ q)%string.
Proof.
  unfold branch_runs_url, build_url. simpl.
  eexists. rewrite append_assoc. simpl. reflexivity.
Qed.

Lemma run_path_not_branch_url owner repo b tail :
  (repos_path owner repo ++ "/actions/runs/" ++ tail)%string
  <> branch_runs_url owner repo b.
Proof.
  destruct (branch_runs_url_shape owner repo b) as [q ->].
  intros H. apply append_cancel_l in H. simpl in H. discriminate.
Qed.

Lemma truthy_int_nonzero n : n <> 0 -> truthy_int (Some n) = Some n.
Proof.
  intros H. unfold truthy_int. destruct (Z.eqb_spec n 0); [contradiction | reflexivity].
Qed.

(** A run id that is not zero does take precedence: whatever [branch] is, no
    request of the call is the branch-filtered run list, and once the owner
    and the repository pass validation the first request is the GET of the
    single run. *)
Theorem run_id_precedence :
  forall (T : Transport) (log : list HttpRequest) (owner repo : string) (n : Z)
         (branch_ : option string),
    n <> 0 ->
    exists sent,
      snd (gh_ci_diagnosis owner repo (Some n) branch_ T log) = (log ++ sent)%list
      /\ (forall r b, In r sent -> req_path r <> branch_runs_url owner repo b)
      /\ (validate_owner_repo owner repo = Return tt ->
          exists rest,
            sent = mkRequest GET
                     (repos_path owner repo ++ "/actions/runs/" ++ PyStr.of_Z n)%string
                     None :: rest).
Proof.
  intros T log owner repo n br Hn.
  unfold gh_ci_diagnosis. rewrite (truthy_int_nonzero n Hn).
  destruct (validate_owner_repo owner repo) as [[]|e].
  2:{ exists []. simpl. rewrite app_nil_r. repeat split; [tauto | discriminate]. }
  rewrite op_bind_lift_Return.
  set (r1 := mkRequest GET
               (repos_path owner repo ++ "/actions/runs/" ++ PyStr.of_Z n)%string None).
  rewrite !op_bind_assoc, op_bind_request. fold r1.
  rewrite op_bind_assoc, op_bind_raise_unless.
  destruct (success (result_of_dispatch (T log r1))).
  2:{ exists [r1]. simpl. repeat split; eauto.
      intros r b [<-|[]]. apply run_path_not_branch_url. }
  rewrite op_bind_ret, snd_op_bind_lift.
  destruct (get _ "id") as [v_id|e].
  2:{ exists [r1]. simpl. repeat split; eauto.
      intros r b [<-|[]]. apply run_path_not_branch_url. }
  rewrite snd_op_bind_lift.
  destruct (_int v_id 0) as [rid|e].
  2:{ exists [r1]. simpl. repeat split; eauto.
      intros r b [<-|[]]. apply run_path_not_branch_url. }
  rewrite op_bind_request.
  set (r2 := mkRequest GET _ None).
  assert (Hsent : forall r b, In r [r1; r2] -> req_path r <> branch_runs_url owner repo b).
  { intros r b [<-|[<-|[]]]; apply run_path_not_branch_url. }
  rewrite op_bind_raise_unless.
  destruct (success _); [rewrite snd_op_lift|];
    (exists [r1; r2]; simpl; rewrite <- app_assoc; repeat split; eauto).
Qed.

(** C2. The run id 0 does not take precedence: with [run_id] 0 and the
    branch [main] both supplied, whatever the transport answers, the first
    request is the branch-filtered run list and not the GET of run 0; what
    follows is at most the request for the jobs of the run that the list
    names. *)
Theorem run_id_zero_yields_to_branch :
  forall T : Transport,
    exists rest,
      dispatched (gh_ci_diagnosis "octocat" "hello" (Some 0) (Some "main")) T
      = mkRequest GET "/repos/octocat/hello/actions/runs?branch=main&per_page=1" None
          :: rest
      /\ (rest = []
          \/ exists id,
               rest = [mkRequest GET
                         ("/repos/octocat/hello/actions/runs/" ++ PyStr.of_Z id
                            ++ "/jobs")%string None]).
Proof.
  intros T. unfold dispatched, gh_ci_diagnosis.
  change (validate_owner_repo "octocat" "hello") with (Return tt).
  change (truthy_int (Some 0)) with (@None Z).
  change (truthy_text (Some "main")) with (Some "main").
  cbv beta iota.
  change (branch_runs_url "octocat" "hello" "main")
    with "/repos/octocat/hello/actions/runs?branch=main&per_page=1".
  change (repos_path "octocat" "hello") with "/repos/octocat/hello".
  rewrite op_bind_lift_Return.
  set (r1 := mkRequest GET "/repos/octocat/hello/actions/runs?branch=main&per_page=1" None).
  rewrite !op_bind_assoc, op_bind_request. fold r1.
  rewrite op_bind_assoc, op_bind_raise_unless.
  destruct (success (result_of_dispatch (T [] r1))).
  2:{ exists []. split; [reflexivity | now left]. }
  rewrite op_bind_assoc. rewrite snd_op_bind_lift.
  destruct (if is_dict _ then _ else _) as [runs|e].
  2:{ exists []. split; [reflexivity | now left]. }
  destruct (truthy runs).
  2:{ exists []. split; [reflexivity | now left]. }
  rewrite snd_op_bind_lift.
  destruct (item0 runs) as [run|e].
  2:{ exists []. split; [reflexivity | now left]. }
  rewrite snd_op_bind_lift.
  destruct (get run "id") as [v_id|e].
  2:{ exists []. split; [reflexivity | now left]. }
  rewrite snd_op_bind_lift.
  destruct (_int v_id 0) as [rid|e].
  2:{ exists []. split; [reflexivity | now left]. }
  rewrite op_bind_request, op_bind_raise_unless.
  exists [mkRequest GET
            ("/repos/octocat/hello/actions/runs/" ++ PyStr.of_Z rid ++ "/jobs")%string
            None].
  split; [|right; now exists rid].
  destruct (success _); [rewrite snd_op_lift|]; reflexivity.
Qed.

(** ** C3: validation before dispatch *)

(** A call whose owner or repository is rejected raises the guard's error
    and leaves the log as it was. *)
Ltac rejected H := intros; cbv beta delta [gh_list_issues gh_get_issue gh_create_issue
  gh_update_issue gh_get_repo gh_create_ref gh_delete_branch gh_compare gh_get_pr
  gh_create_pr gh_update_pr gh_merge_pr gh_get_file gh_put_file gh_delete_file
  gh_get_commit_status gh_dispatch_workflow gh_rerun_workflow gh_ci_diagnosis];
  rewrite H; reflexivity.

Lemma issues_tools_validate_first owner repo e T log :
  validate_owner_repo owner repo = Raise e ->
  (forall state labels assignee per_page page,
      gh_list_issues owner repo state labels assignee per_page page T log = (Raise e, log))
  /\ (forall n, gh_get_issue owner repo n T log = (Raise e, log))
  /\ (forall title b labels assignees,
        gh_create_issue owner repo title b labels assignees T log = (Raise e, log))
  /\ (forall n title b state labels assignees,
        gh_update_issue owner repo n title b state labels assignees T log = (Raise e, log)).
Proof. intros H. repeat split; rejected H. Qed.

Lemma repos_tools_validate_first owner repo e T log :
  validate_owner_repo owner repo = Raise e ->
  gh_get_repo owner repo T log = (Raise e, log)
  /\ (forall ref sha, gh_create_ref owner repo ref sha T log = (Raise e, log))
  /\ (forall b, gh_delete_branch owner repo b T log = (Raise e, log))
  /\ (forall base head, gh_compare owner repo base head T log = (Raise e, log)).
Proof. intros H. repeat split; rejected H. Qed.

Lemma pulls_tools_validate_first owner repo e T log :
  validate_owner_repo owner repo = Raise e ->
  (forall n, gh_get_pr owner repo n T log = (Raise e, log))
  /\ (forall title head base b draft,
        gh_create_pr owner repo title head base b draft T log = (Raise e, log))
  /\ (forall n title b state base,
        gh_update_pr owner repo n title b state base T log = (Raise e, log))
  /\ (forall n mm ct cm, gh_merge_pr owner repo n mm ct cm T log = (Raise e, log)).
Proof. intros H. repeat split; rejected H. Qed.

Lemma files_tools_validate_first owner repo e T log :
  validate_owner_repo owner repo = Raise e ->
  (forall path ref, gh_get_file owner repo path ref T log = (Raise e, log))
  /\ (forall path c m b sha, gh_put_file owner repo path c m b sha T log = (Raise e, log))
  /\ (forall path m sha b, gh_delete_file owner repo path m sha b T log = (Raise e, log))
  /\ (forall ref, gh_get_commit_status owner repo ref T log = (Raise e, log)).
Proof. intros H. repeat split; rejected H. Qed.

Lemma actions_tools_validate_first owner repo e T log :
  validate_owner_repo owner repo = Raise e ->
  (forall wid ref inputs,
      gh_dispatch_workflow owner repo wid ref inputs T log = (Raise e, log))
  /\ (forall n, gh_rerun_workflow owner repo n T log = (Raise e, log))
  /\ (forall n b, gh_ci_diagnosis owner repo n b T log = (Raise e, log)).
Proof. intros H. repeat split; rejected H. Qed.

(** A rejected file path or git ref stops the tools that call the guard. *)
Lemma path_and_ref_validated owner repo e T log :
  validate_owner_repo owner repo = Return tt ->
  (forall path ref, validate_path path = Raise e ->
                    gh_get_file owner repo path ref T log = (Raise e, log))
  /\ (forall path c m b sha, validate_path path = Raise e ->
                             gh_put_file owner repo path c m b sha T log = (Raise e, log))
  /\ (forall path m sha b, validate_path path = Raise e ->
                           gh_delete_file owner repo path m sha b T log = (Raise e, log))
  /\ (forall ref, validate_ref ref = Raise e ->
                  gh_get_commit_status owner repo ref T log = (Raise e, log)).
Proof.
  intros H. repeat split; intros;
    cbv beta delta [gh_get_file gh_put_file gh_delete_file gh_get_commit_status];
    rewrite H, op_bind_lift_Return;
    match goal with Hg : _ = Raise e |- _ => rewrite Hg end; reflexivity.
Qed.

(** [validate_ref] rejects the empty text. *)
Lemma empty_ref_is_rejected :
  validate_ref EmptyString = Raise (ValueError "Git ref cannot be empty").
Proof. reflexivity. Qed.

(** [_NAME_RE] lets a name through that ends in a line feed. *)
Lemma name_with_line_feed_is_accepted :
  validate_repo (String.append "hello" (String PyStr.LF EmptyString)) = Return tt.
Proof. reflexivity. Qed.

(** C3. [gh_compare] puts [base] and [head] into the request path without
    calling [validate_ref]: with the empty text as [base], which
    [validate_ref] rejects, the call raises no [ValueError] and dispatches
    its request. *)
Theorem compare_dispatches_unvalidated_ref :
  forall T : Transport,
    validate_ref EmptyString = Raise (ValueError "Git ref cannot be empty")
    /\ dispatched (gh_compare "octocat" "hello" EmptyString "main") T
       = [mkRequest GET "/repos/octocat/hello/compare/...main" None].
Proof.
  intros T. split; [reflexivity|].
  unfold dispatched, gh_compare.
  change (validate_owner_repo "octocat" "hello") with (Return tt).
  rewrite op_bind_lift_Return, op_bind_request, op_bind_raise_unless.
  simpl app.
  destruct (success _); reflexivity.
Qed.

(** The sibling tool that calls [validate_ref] stops on the same value. *)
Lemma commit_status_rejects_empty_ref T :
  gh_get_commit_status "octocat" "hello" EmptyString T []
  = (Raise (ValueError "Git ref cannot be empty"), []).
Proof. reflexivity. Qed.

(** A repository name ending in a line feed reaches the transport. *)
Lemma get_repo_dispatches_line_feed_name T :
  dispatched (gh_get_repo "octocat" (String.append "hello" (String PyStr.LF EmptyString))) T
  = [mkRequest GET
       (String.append "/repos/octocat/hello" (String PyStr.LF EmptyString)) None].
Proof.
  unfold dispatched, gh_get_repo.
  change (validate_owner_repo "octocat" _) with (Return tt).
  rewrite op_bind_lift_Return, op_bind_request, op_bind_raise_unless.
  simpl app.
  destruct (success _); reflexivity.
Qed.

(** ** C4: what the guards say when they reject *)

Lemma prefix_refl (x : string) : String.prefix x x = true.
Proof.
  induction x as [|c x IH]; simpl; [reflexivity|].
  destruct (ascii_dec c c); [exact IH | contradiction].
Qed.

Lemma contains_append (p x : string) : PyStr.contains x (p ++ x) = true.
Proof.
  induction p as [|c p IH]; simpl.
  - destruct x as [|a x]; [reflexivity|].
    change (PyStr.contains (String a x) (String a x))
      with (String.prefix (String a x) (String a x) || PyStr.contains (String a x) x).
    rewrite prefix_refl. reflexivity.
  - rewrite IH. apply orb_true_r.
Qed.

(** C4 (amended). A rejection by [validate_owner] or [validate_repo] carries
    a message that ends with the [repr] of the offending value; a rejection by
    [validate_path] or [validate_ref] carries one of their fixed messages,
    which do not mention the value. *)
Theorem guard_messages :
  forall s : string,
    (validate_owner s = Return tt
     \/ exists msg, validate_owner s = Raise (ValueError msg)
                    /\ msg = ("Invalid GitHub owner: " ++ PyStr.repr s)%string
                    /\ PyStr.contains (PyStr.repr s) msg = true)
    /\ (validate_repo s = Return tt
        \/ exists msg, validate_repo s = Raise (ValueError msg)
                       /\ msg = ("Invalid repository name: " ++ PyStr.repr s)%string
                       /\ PyStr.contains (PyStr.repr s) msg = true)
    /\ In (validate_path s)
          [Return tt;
           Raise (ValueError "File path cannot be empty");
           Raise (ValueError "File path cannot contain null bytes");
           Raise (ValueError "File path must be relative")]
    /\ In (validate_ref s)
          [Return tt;
           Raise (ValueError "Git ref cannot be empty");
           Raise (ValueError "Git ref cannot contain null bytes")].
Proof.
  intros s. repeat split.
  - unfold validate_owner. destruct (_ || _); [right | left; reflexivity].
    eexists. split; [reflexivity|]. split; [reflexivity | apply contains_append].
  - unfold validate_repo. destruct (_ || _); [right | left; reflexivity].
    eexists. split; [reflexivity|]. split; [reflexivity | apply contains_append].
  - unfold validate_path.
    destruct (PyStr.is_empty s); [simpl; tauto|].
    destruct (PyStr.contains_char PyStr.NUL s); [simpl; tauto|].
    destruct (PyStr.startswith "/" s); simpl; tauto.
  - unfold validate_ref.
    destruct (PyStr.is_empty s); [simpl; tauto|].
    destruct (PyStr.contains_char PyStr.NUL s); simpl; tauto.
Qed.

(** ** C5: optional arguments and the request payload *)

Lemma dict_get_set {A : Type} (d : list (string * A)) (k k' : string) (v : A) :
  dict_get (dict_set d k v) k' = if String.eqb k k' then Some v else dict_get d k'.
Proof.
  induction d as [|[k0 v0] d IH]; simpl.
  - rewrite String.eqb_sym. destruct (String.eqb k' k); reflexivity.
  - destruct (String.eqb_spec k0 k) as [->|Hk]; simpl.
    + destruct (String.eqb k k'); reflexivity.
    + rewrite IH. destruct (String.eqb_spec k0 k') as [->|Hk'];
        [|reflexivity].
      destruct (String.eqb_spec k k'); [congruence | reflexivity].
Qed.

Lemma get_set_if_truthy p k x k' :
  dict_get (set_if_truthy p k x) k'
  = match truthy_text x with
    | Some t => if String.eqb k k' then Some (JStr t) else dict_get p k'
    | None => dict_get p k'
    end.
Proof.
  unfold set_if_truthy, truthy_text. destruct x as [t|]; [|reflexivity].
  destruct (PyStr.is_empty t); [reflexivity | apply dict_get_set].
Qed.

Lemma get_set_if_truthy_list p k x k' :
  dict_get (set_if_truthy_list p k x) k'
  = match truthy_list x with
    | Some l => if String.eqb k k' then Some (json_strings l) else dict_get p k'
    | None => dict_get p k'
    end.
Proof.
  unfold set_if_truthy_list, truthy_list. destruct x as [[|a l]|]; try reflexivity.
  apply dict_get_set.
Qed.

Lemma get_set_if_truthy_dict p k x k' :
  dict_get (set_if_truthy_dict p k x) k'
  = match truthy_list x with
    | Some d => if String.eqb k k' then Some (json_string_dict d) else dict_get p k'
    | None => dict_get p k'
    end.
Proof.
  unfold set_if_truthy_dict, truthy_list. destruct x as [[|a l]|]; try reflexivity.
  apply dict_get_set.
Qed.

Lemma get_set_if_not_none p k x k' :
  dict_get (set_if_not_none p k x) k'
  = match x with
    | Some t => if String.eqb k k' then Some (JStr t) else dict_get p k'
    | None => dict_get p k'
    end.
Proof.
  unfold set_if_not_none. destruct x; [apply dict_get_set | reflexivity].
Qed.

Lemma get_set_if_not_none_list p k x k' :
  dict_get (set_if_not_none_list p k x) k'
  = match x with
    | Some l => if String.eqb k k' then Some (json_strings l) else dict_get p k'
    | None => dict_get p k'
    end.
Proof.
  unfold set_if_not_none_list. destruct x; [apply dict_get_set | reflexivity].
Qed.

Lemma snd_after_request {A : Type} method path body_ fallback (r : GhResult -> result A)
  T log :
  snd (op_bind (request method path body_)
         (fun response =>
            op_bind (raise_unless_success response fallback)
              (fun _ => op_lift (r response))) T log)
  = (log ++ [mkRequest method path body_])%list.
Proof.
  rewrite op_bind_request, op_bind_raise_unless.
  destruct (success _); reflexivity.
Qed.

Ltac payload_fields :=
  repeat (rewrite ?get_set_if_truthy, ?get_set_if_truthy_list, ?get_set_if_truthy_dict,
            ?get_set_if_not_none, ?get_set_if_not_none_list);
  repeat match goal with
         | |- context [truthy_text ?x] => destruct (truthy_text x)
         | |- context [truthy_list ?x] => destruct (truthy_list x)
         | |- context [match ?x with Some _ => _ | None => _ end] => destruct x
         end;
  reflexivity.

Ltac one_request H :=
  unfold sends; cbv beta zeta delta [gh_create_issue gh_update_issue gh_create_pr
    gh_update_pr gh_merge_pr gh_put_file gh_delete_file gh_dispatch_workflow];
  rewrite H, op_bind_lift_Return;
  first [ apply snd_after_request | reflexivity ].

(** C5 (amended). Once the identifiers pass validation, each write tool sends
    one request whose payload has a field for an optional argument that
    defaults to [None] exactly when: the argument is supplied and truthy (not
    empty), for [gh_create_issue], [gh_create_pr], [gh_merge_pr],
    [gh_put_file], [gh_delete_file] and [gh_dispatch_workflow]; the argument
    is supplied, empty or not, for [gh_update_issue] and [gh_update_pr]
    (which raises before any request when none is).  The field then holds the
    whole argument, and a field that is not set is absent from the payload,
    never null.  The two optional arguments with another default, [draft] of
    [gh_create_pr] and [merge_method] of [gh_merge_pr], are in the payload
    whatever their value, so also when the caller leaves them out. *)
Theorem optional_payload_fields :
  forall (T : Transport) (log : list HttpRequest) (owner repo : string),
    validate_owner_repo owner repo = Return tt ->
    (forall title b labels assignees, exists payload,
        sends (gh_create_issue owner repo title b labels assignees) T log
          POST (repos_path owner repo ++ "/issues")%string payload
        /\ dict_get payload "body" = option_map JStr (truthy_text b)
        /\ dict_get payload "labels" = option_map json_strings (truthy_list labels)
        /\ dict_get payload "assignees"
           = option_map json_strings (truthy_list assignees))
    /\ (forall n title b state labels assignees, exists payload,
        sends (gh_update_issue owner repo n title b state labels assignees) T log
          PATCH (repos_path owner repo ++ "/issues/" ++ PyStr.of_Z n)%string payload
        /\ dict_get payload "title" = option_map JStr title
        /\ dict_get payload "body" = option_map JStr b
        /\ dict_get payload "state" = option_map JStr state
        /\ dict_get payload "labels" = option_map json_strings labels
        /\ dict_get payload "assignees" = option_map json_strings assignees)
    /\ (forall title head base b draft, exists payload,
        sends (gh_create_pr owner repo title head base b draft) T log
          POST (repos_path owner repo ++ "/pulls")%string payload
        /\ dict_get payload "body" = option_map JStr (truthy_text b)
        /\ dict_get payload "draft" = Some (JBool draft))
    /\ (forall n title b state base,
        (title = None /\ b = None /\ state = None /\ base = None
         /\ gh_update_pr owner repo n title b state base T log
            = (Raise (ValueError
                        "At least one field (title, body, state, base) must be provided"),
               log))
        \/ exists payload,
            sends (gh_update_pr owner repo n title b state base) T log
              PATCH (repos_path owner repo ++ "/pulls/" ++ PyStr.of_Z n)%string payload
            /\ dict_get payload "title" = option_map JStr title
            /\ dict_get payload "body" = option_map JStr b
            /\ dict_get payload "state" = option_map JStr state
            /\ dict_get payload "base" = option_map JStr base)
    /\ (forall n merge_method commit_title commit_message_, exists payload,
        sends (gh_merge_pr owner repo n merge_method commit_title commit_message_) T log
          PUT (repos_path owner repo ++ "/pulls/" ++ PyStr.of_Z n ++ "/merge")%string
          payload
        /\ dict_get payload "merge_method" = Some (JStr merge_method)
        /\ dict_get payload "commit_title" = option_map JStr (truthy_text commit_title)
        /\ dict_get payload "commit_message"
           = option_map JStr (truthy_text commit_message_))
    /\ (forall path content_base64 message_ branch_ sha,
        validate_path path = Return tt ->
        exists payload,
          sends (gh_put_file owner repo path content_base64 message_ branch_ sha) T log
            PUT (repos_path owner repo ++ "/contents/" ++ path)%string payload
          /\ dict_get payload "branch" = option_map JStr (truthy_text branch_)
          /\ dict_get payload "sha" = option_map JStr (truthy_text sha))
    /\ (forall path message_ sha branch_,
        validate_path path = Return tt ->
        exists payload,
          sends (gh_delete_file owner repo path message_ sha branch_) T log
            DELETE (repos_path owner repo ++ "/contents/" ++ path)%string payload
          /\ dict_get payload "branch" = option_map JStr (truthy_text branch_))
    /\ (forall workflow_id ref inputs, exists payload,
        sends (gh_dispatch_workflow owner repo workflow_id ref inputs) T log
          POST (repos_path owner repo ++ "/actions/workflows/"
                  ++ fmt_workflow_id workflow_id ++ "/dispatches")%string payload
        /\ dict_get payload "inputs"
           = option_map json_string_dict (truthy_list inputs)).
Proof.
  intros T log owner repo H.
  split; [|split; [|split; [|split; [|split; [|split; [|split]]]]]].
  - intros. eexists. split; [one_request H|]. repeat split; payload_fields.
  - intros. eexists. split; [one_request H|]. repeat split; payload_fields.
  - intros. eexists. split; [one_request H|]. repeat split; payload_fields.
  - intros n title b state base.
    destruct title as [t|], b as [b|], state as [st|], base as [ba|];
      try (right; eexists; split;
           [ unfold sends, gh_update_pr; rewrite H, op_bind_lift_Return;
             apply snd_after_request
           | repeat split; reflexivity ]).
    left. repeat split. unfold gh_update_pr. rewrite H. reflexivity.
  - intros. eexists. split; [one_request H|]. repeat split; payload_fields.
  - intros path c m br sha Hp. eexists. split.
    + unfold sends, gh_put_file. rewrite H, op_bind_lift_Return, Hp, op_bind_lift_Return.
      reflexivity.
    + repeat split; payload_fields.
  - intros path m sha br Hp. eexists. split.
    + unfold sends, gh_delete_file.
      rewrite H, op_bind_lift_Return, Hp, op_bind_lift_Return. reflexivity.
    + payload_fields.
  - intros. eexists. split; [one_request H|]. payload_fields.
Qed.

(** ** C6: a success without a body *)

Lemma result_of_answer resp payload :
  answers_with resp payload -> result_of_dispatch resp = mkGhResult true payload None.
Proof.
  intros [Hs (r & Hr & Hb)]. unfold result_of_dispatch. rewrite Hs, Hr, Hb. reflexivity.
Qed.

(** C6. When the transport reports a success whose response has no body,
    [gh_dispatch_workflow] and [gh_delete_branch] return the result with
    [success] true, [data] null and no error, after their one request; the
    request of [gh_dispatch_workflow] carries the ref and, when some are
    given, all the inputs. *)
Theorem empty_body_is_success :
  forall (T : Transport) (log : list HttpRequest) (owner repo : string),
    validate_owner_repo owner repo = Return tt ->
    (forall workflow_id ref inputs,
        let payload := match inputs with
                       | Some (input :: others) =>
                           [("ref", JStr ref);
                            ("inputs", json_string_dict (input :: others))]
                       | _ => [("ref", JStr ref)]
                       end in
        let req := mkRequest POST
                     (repos_path owner repo ++ "/actions/workflows/"
                        ++ fmt_workflow_id workflow_id ++ "/dispatches")%string
                     (Some payload) in
        answers_with (T log req) JNull ->
        gh_dispatch_workflow owner repo workflow_id ref inputs T log
        = (Return (mkGhResult true JNull None), (log ++ [req])%list))
    /\ (forall branch_,
          let req := mkRequest DELETE
                       (repos_path owner repo ++ "/git/refs/heads/" ++ branch_)%string
                       None in
          PyStr.is_empty branch_ = false ->
          answers_with (T log req) JNull ->
          gh_delete_branch owner repo branch_ T log
          = (Return (mkGhResult true JNull None), (log ++ [req])%list)).
Proof.
  intros T log owner repo H. split.
  - intros wid ref inputs payload req Ha.
    assert (Hp : set_if_truthy_dict [("ref", JStr ref)] "inputs" inputs = payload)
      by (destruct inputs as [[|input others]|]; reflexivity).
    unfold gh_dispatch_workflow. rewrite H, op_bind_lift_Return.
    cbv zeta. rewrite Hp, request_run.
    change (mkRequest POST _ (Some payload)) with req.
    rewrite (result_of_answer _ _ Ha). reflexivity.
  - intros b req Hb Ha.
    unfold gh_delete_branch. rewrite H, op_bind_lift_Return, Hb.
    rewrite request_run. fold req.
    rewrite (result_of_answer _ _ Ha). reflexivity.
Qed.

(** ** C7: the coercions *)

(** C7. [_int] does not return on an infinite float: [int()] raises
    [OverflowError], which the handler of [_int] does not catch. *)
Theorem _int_raises_on_infinity :
  forall (negative : bool) (default : Z),
    _int (JFloat (S754_infinity negative)) default = Raise (Builtin OverflowError).
Proof. reflexivity. Qed.

(** The examples of the specification. *)
Lemma coercion_examples :
  _int JNull 5 = Return 5
  /\ _int (JStr "not a number") 5 = Return 5
  /\ _bool JNull false = false
  /\ _labels (JArr [JObj [("name", JStr "bug")]; JObj [("name", JNull)]; JInt 42])
     = Return ["bug"%string].
Proof. repeat split; reflexivity. Qed.

(** Everywhere else [_int] returns. *)
Lemma _int_returns (val : JSON) (default : Z) :
  (forall negative, val <> JFloat (S754_infinity negative)) ->
  exists z, _int val default = Return z.
Proof.
  intros H. unfold _int.
  destruct val as [|b|z|f|t|l|d]; simpl; eauto.
  - destruct f as [sg|sg| |sg m e]; simpl; eauto. exfalso. now apply (H sg).
  - destruct (PyStr.to_Z t); simpl; eauto.
Qed.

Lemma _nested_str_returns (obj : JSON) (key : string) :
  exists r, _nested_str obj key = Return r.
Proof.
  unfold _nested_str. destruct obj; simpl; eauto.
Qed.

Lemma labels_of_returns (l : list JSON) : exists names, labels_of l = Return names.
Proof.
  induction l as [|label rest [names IH]]; simpl; [eauto|].
  destruct label as [| | | | | |d]; simpl; eauto.
  destruct (truthy _); simpl; eauto.
  rewrite IH. simpl. eauto.
Qed.

Lemma _labels_returns (val : JSON) : exists names, _labels val = Return names.
Proof.
  destruct val; simpl; eauto. apply labels_of_returns.
Qed.

(** [_labels] keeps, in order, the names of the entries that are objects
    with a truthy [name]. *)
Lemma labels_of_filter (l : list JSON) :
  labels_of l
  = Return (map (fun label => _str (name_field label) EmptyString)
              (filter (fun label => is_dict label && truthy (name_field label)) l)).
Proof.
  induction l as [|label rest IH]; simpl; [reflexivity|].
  destruct label as [| | | | | |d]; simpl; try exact IH.
  destruct (truthy _); simpl; [|exact IH].
  rewrite IH. reflexivity.
Qed.

(** ** C8: issues and pull requests *)

Lemma issues_of_objects (items : list JSON) :
  Forall (fun item => is_dict item = true) items ->
  issues_of items
  = map_result _parse_issue (filter (fun item => negb (carries_pull_request item)) items).
Proof.
  induction 1 as [|item rest Hd _ IH]; [reflexivity|].
  destruct item as [| | | | | |d]; try discriminate Hd.
  simpl. destruct (has_key d "pull_request"); simpl; rewrite IH; reflexivity.
Qed.

Lemma _parse_issue_returns (d : JSONObject) :
  (forall negative, dict_get d "number" <> Some (JFloat (S754_infinity negative))) ->
  exists issue, _parse_issue (JObj d) = Return issue.
Proof.
  intros H. unfold _parse_issue, get, get_or. simpl.
  destruct (_int_returns (match dict_get d "number" with Some x => x | None => JNull end) 0)
    as [z ->].
  { intros sg E. apply (H sg). destruct (dict_get d "number"); [now subst | discriminate]. }
  simpl.
  destruct (_nested_str_returns
              (match dict_get d "user" with Some x => x | None => JNull end) "login")
    as [a ->].
  simpl.
  destruct (_labels_returns (match dict_get d "labels" with Some x => x | None => JNull end))
    as [ls ->].
  simpl. eauto.
Qed.

(** C8 (amended). When the successful response of [gh_list_issues] is a list
    whose entries are all JSON objects, the outcome is the parse, in order, of
    exactly the entries that carry no [pull_request] field: the entries with
    the field are excluded and every other entry is parsed and included. *)
Theorem list_issues_excludes_pull_requests :
  forall (T : Transport) (log : list HttpRequest) (owner repo state : string)
         (labels assignee : option string) (per_page page : Z) (items : list JSON),
    let req := mkRequest GET
                 (build_url (repos_path owner repo ++ "/issues")
                    [("state", PStr state); ("labels", opt_param labels);
                     ("assignee", opt_param assignee);
                     ("per_page", PInt per_page); ("page", PInt page)])
                 None in
    validate_owner_repo owner repo = Return tt ->
    answers_with (T log req) (JArr items) ->
    Forall (fun item => is_dict item = true) items ->
    gh_list_issues owner repo state labels assignee per_page page T log
    = (map_result _parse_issue
         (filter (fun item => negb (carries_pull_request item)) items),
       (log ++ [req])%list).
Proof.
  intros T log owner repo state labels assignee per_page page items req H Ha Hd.
  unfold gh_list_issues. rewrite H, op_bind_lift_Return.
  cbv zeta. rewrite op_bind_request. fold req.
  rewrite (result_of_answer _ _ Ha), op_bind_raise_unless. simpl.
  unfold op_lift. rewrite (issues_of_objects items Hd). reflexivity.
Qed.

(** ** C9: the URL builder *)

Lemma render_param_spec (val : param) : render_param val = render_spec val.
Proof. destruct val as [| | |[|]]; reflexivity. Qed.

Lemma dict_set_absent {A : Type} (d : list (string * A)) (k : string) (v : A) :
  dict_get d k = None -> dict_set d k v = (d ++ [(k, v)])%list.
Proof.
  induction d as [|[k0 v0] d IH]; simpl; [reflexivity|].
  destruct (String.eqb k0 k); [discriminate|]. intros H. now rewrite IH.
Qed.

Lemma dict_get_snoc_other {A : Type} (d : list (string * A)) (k k' : string) (v : A) :
  k <> k' -> dict_get d k' = None -> dict_get (d ++ [(k, v)])%list k' = None.
Proof.
  intros Hk. induction d as [|[k0 v0] d IH]; simpl.
  - destruct (String.eqb_spec k k'); [contradiction | reflexivity].
  - destruct (String.eqb k0 k'); [discriminate | exact IH].
Qed.

Lemma build_filtered_spec (params : list (string * param)) :
  forall acc : list (string * string),
    NoDup (map fst params) ->
    (forall k, In k (map fst params) -> dict_get acc k = None) ->
    build_filtered params acc
    = (acc ++ map (fun kv => (fst kv, render_spec (snd kv)))
                (filter (fun kv => is_present (snd kv)) params))%list.
Proof.
  induction params as [|[key val] rest IH]; intros acc Hnd Hacc; simpl.
  - now rewrite app_nil_r.
  - simpl in Hnd. inversion Hnd as [|? ? Hnotin Hnd']; subst.
    assert (Hrest : forall k, In k (map fst rest) -> dict_get acc k = None).
    { intros k Hk. apply Hacc. simpl. auto. }
    assert (Hstep : forall v,
               build_filtered rest (dict_set acc key v)
               = (acc ++ (key, v)
                    :: map (fun kv => (fst kv, render_spec (snd kv)))
                         (filter (fun kv => is_present (snd kv)) rest))%list).
    { intros v. rewrite dict_set_absent by (apply Hacc; simpl; auto).
      rewrite IH; [now rewrite <- app_assoc | exact Hnd' |].
      intros k Hk. apply dict_get_snoc_other; [|now apply Hrest].
      intros ->. contradiction. }
    destruct val as [|t|z|b]; simpl.
    + now apply IH.
    + apply Hstep.
    + apply Hstep.
    + rewrite Hstep. destruct b; reflexivity.
Qed.

(** The escape of one character by [quote_plus] is the one of the form
    encoding, on each of the 256 code points. *)
Lemma quote_plus_char_spec (c : ascii) : quote_plus_char c = encode_char_spec c.
Proof. destruct c as [[] [] [] [] [] [] [] []]; reflexivity. Qed.

Lemma quote_plus_spec (s : string) : quote_plus s = encode_spec s.
Proof.
  unfold quote_plus. induction s as [|c s IH]; simpl; [reflexivity|].
  now rewrite quote_plus_char_spec, IH.
Qed.

Lemma urlencode_spec (d : list (string * string)) : urlencode d = query_spec d.
Proof.
  unfold urlencode. induction d as [|[k v] d IH]; [reflexivity|].
  destruct d as [|p d].
  - simpl. now rewrite !quote_plus_spec.
  - change (PyStr.join "&"
              (map (fun kv => quote_plus (fst kv) ++ "=" ++ quote_plus (snd kv))
                 ((k, v) :: p :: d)))
      with ((quote_plus k ++ "=" ++ quote_plus v) ++ "&"
            ++ PyStr.join "&"
                 (map (fun kv => quote_plus (fst kv) ++ "=" ++ quote_plus (snd kv))
                    (p :: d)))%string.
    rewrite IH, !quote_plus_spec, append_assoc.
    change (query_spec ((k, v) :: p :: d))
      with (encode_spec k ++ "=" ++ encode_spec v ++ "&" ++ query_spec (p :: d))%string.
    reflexivity.
Qed.

(** C9. For a parameter map, [build_url] is the builder the specification
    words: entries without a value are dropped, booleans become [true] and
    [false], other values their canonical text, and the result is the
    endpoint alone when nothing is left and the endpoint, a question mark and
    the url-encoded query otherwise; the two examples come out as stated,
    and a value with a space, an ampersand and an equals sign is escaped. *)
Theorem build_url_meets_spec :
  forall (endpoint : string) (params : list (string * param)),
    NoDup (map fst params) ->
    build_url endpoint params = build_url_spec endpoint params
    /\ build_url "/x" [("a", PNone); ("b", PInt 1); ("c", PBool true)] = "/x?b=1&c=true"
    /\ build_url "/x" [] = "/x"
    /\ build_url "/s" [("q", PStr "a b&c=d")] = "/s?q=a+b%26c%3Dd".
Proof.
  intros endpoint params Hnd. split; [|repeat split; reflexivity].
  unfold build_url, build_url_spec.
  rewrite (build_filtered_spec params [] Hnd) by reflexivity.
  simpl app. rewrite urlencode_spec. reflexivity.
Qed.

(** ** C10: a successful payload that is not an object *)

(** C10. When the transport reports a success whose payload is not a JSON
    object, [gh_get_issue], [gh_get_repo] and [gh_get_pr] do not raise: each
    returns the record made of the coercion defaults, the one it builds from
    an empty object. *)
Theorem wrong_shape_gives_defaults :
  forall (T : Transport) (log : list HttpRequest) (owner repo : string) (payload : JSON),
    validate_owner_repo owner repo = Return tt ->
    is_dict payload = false ->
    (forall n,
        let req := mkRequest GET
                     (repos_path owner repo ++ "/issues/" ++ PyStr.of_Z n)%string None in
        answers_with (T log req) payload ->
        gh_get_issue owner repo n T log = (Return default_issue, (log ++ [req])%list)
        /\ _parse_issue (JObj []) = Return default_issue)
    /\ (let req := mkRequest GET (repos_path owner repo) None in
        answers_with (T log req) payload ->
        gh_get_repo owner repo T log = (Return default_repo, (log ++ [req])%list)
        /\ _parse_repo (JObj []) = Return default_repo)
    /\ (forall n,
          let req := mkRequest GET
                       (repos_path owner repo ++ "/pulls/" ++ PyStr.of_Z n)%string None in
          answers_with (T log req) payload ->
          gh_get_pr owner repo n T log = (Return default_pr, (log ++ [req])%list)
          /\ _parse_pr (JObj []) = Return default_pr).
Proof.
  intros T log owner repo payload H Hshape.
  assert (Hd : dict_or_empty payload = JObj []).
  { unfold dict_or_empty. now rewrite Hshape. }
  split; [|split].
  - intros n req Ha. split; [|reflexivity].
    unfold gh_get_issue. rewrite H, op_bind_lift_Return, op_bind_request. fold req.
    rewrite (result_of_answer _ _ Ha), op_bind_raise_unless. simpl.
    rewrite Hd. reflexivity.
  - intros req Ha. split; [|reflexivity].
    unfold gh_get_repo. rewrite H, op_bind_lift_Return, op_bind_request. fold req.
    rewrite (result_of_answer _ _ Ha), op_bind_raise_unless. simpl.
    rewrite Hd. reflexivity.
  - intros n req Ha. split; [|reflexivity].
    unfold gh_get_pr. rewrite H, op_bind_lift_Return, op_bind_request. fold req.
    rewrite (result_of_answer _ _ Ha), op_bind_raise_unless. simpl.
    rewrite Hd. reflexivity.
Qed.

(* ================================================================== *)
(** * Further properties of the pipeline                                 *)
(* ================================================================== *)

(** ** The dispatcher *)

(** X1. [request] never raises and dispatches exactly one request.  Its
    result is a success exactly when the transport reports one and hands back
    a response object, and then it carries the body of that response; in
    every other case it is a failure without data whose error is the
    transport's message, or "Request failed" when there is no error object. *)
Theorem request_outcome :
  forall (method : HttpMethod) (path : string) (body_ : option JSONObject)
         (T : Transport) (log : list HttpRequest),
    let req := mkRequest method path body_ in
    exists r,
      request method path body_ T log = (Return r, (log ++ [req])%list)
      /\ (success r = true <->
          dr_success (T log req) = true /\ dr_response (T log req) <> None)
      /\ (success r = true ->
          error r = None
          /\ exists resp, dr_response (T log req) = Some resp /\ data r = body resp)
      /\ (success r = false ->
          data r = JNull
          /\ error r = Some (match dr_error (T log req) with
                             | Some e => message e
                             | None => "Request failed"
                             end)).
Proof.
  intros method path body_ T log req.
  exists (result_of_dispatch (T log req)). split; [reflexivity|].
  unfold result_of_dispatch.
  destruct (dr_success (T log req)), (dr_response (T log req)) as [resp|]; simpl;
    repeat split; try discriminate; try tauto; eauto;
    try (intros [H1 H2]; congruence).
Qed.

(** ** The guards *)

Lemma name_tail_shape (t : string) :
  name_tail t = true ->
  exists body_,
    all_chars name_char body_ = true
    /\ (t = body_ \/ t = (body_ ++ String PyStr.LF EmptyString)%string).
Proof.
  induction t as [|c t IH]; simpl; intros H.
  - exists EmptyString. auto.
  - destruct (name_char c) eqn:Hc.
    + destruct (IH H) as (b & Hb & [->| ->]).
      * exists (String c b). simpl. rewrite Hc, Hb. auto.
      * exists (String c b). simpl. rewrite Hc, Hb. auto.
    + apply andb_true_iff in H. destruct H as [Hlf Ht].
      apply Ascii.eqb_eq in Hlf. subst c.
      destruct t; [|discriminate].
      exists EmptyString. auto.
Qed.

Lemma name_chars_have_no_slash (s : string) :
  all_chars name_char s = true -> PyStr.contains_char (PyStr.ch 47) s = false.
Proof.
  induction s as [|c s IH]; simpl; [reflexivity|].
  intros H. apply andb_true_iff in H. destruct H as [Hc Hs].
  rewrite (IH Hs), orb_false_r.
  destruct (Ascii.eqb_spec c (PyStr.ch 47)) as [->|]; [discriminate Hc | reflexivity].
Qed.

Lemma contains_char_app (c : ascii) (a b : string) :
  PyStr.contains_char c (a ++ b) = PyStr.contains_char c a || PyStr.contains_char c b.
Proof.
  induction a as [|x a IH]; simpl; [reflexivity|]. now rewrite IH, orb_assoc.
Qed.

Lemma accepted_name_shape (s : string) :
  _NAME_RE_match s = true ->
  (exists c body_,
      PyStr.is_alnum c = true
      /\ all_chars name_char body_ = true
      /\ (s = String c body_
          \/ s = String c (body_ ++ String PyStr.LF EmptyString)%string))
  /\ PyStr.contains_char (PyStr.ch 47) s = false.
Proof.
  destruct s as [|c t]; simpl; [discriminate|].
  intros H. apply andb_true_iff in H. destruct H as [Hc Ht].
  destruct (name_tail_shape t Ht) as (b & Hb & Hshape).
  split; [exists c, b; destruct Hshape as [->| ->]; auto|].
  assert (Hslash : Ascii.eqb c (PyStr.ch 47) = false).
  { destruct (Ascii.eqb_spec c (PyStr.ch 47)) as [->|]; [discriminate Hc | reflexivity]. }
  rewrite Hslash. simpl.
  destruct Hshape as [->| ->].
  - now apply name_chars_have_no_slash.
  - rewrite contains_char_app, (name_chars_have_no_slash b Hb). reflexivity.
Qed.

(** X2. A name that [validate_owner] or [validate_repo] accepts starts with
    an ASCII letter or digit and goes on with letters, digits, dots,
    underscores and hyphens only, up to one final line feed that the pattern
    lets through; so it holds no slash and cannot add a segment to the request
    path. *)
Theorem accepted_names_are_plain :
  forall s : string,
    validate_owner s = Return tt \/ validate_repo s = Return tt ->
    (exists c body_,
        PyStr.is_alnum c = true
        /\ all_chars name_char body_ = true
        /\ (s = String c body_
            \/ s = String c (body_ ++ String PyStr.LF EmptyString)%string))
    /\ PyStr.contains_char (PyStr.ch 47) s = false.
Proof.
  intros s H. apply accepted_name_shape.
  unfold validate_owner, validate_repo in H.
  destruct (_NAME_RE_match s); [reflexivity|].
  rewrite orb_true_r in H. destruct H; discriminate.
Qed.

(** ** The URL builder *)

Lemma all_chars_app (p : ascii -> bool) (a b : string) :
  all_chars p (a ++ b) = all_chars p a && all_chars p b.
Proof.
  induction a as [|c a IH]; simpl; [reflexivity|]. now rewrite IH, andb_assoc.
Qed.

Lemma quote_plus_char_encoded (c : ascii) :
  all_chars query_char (quote_plus_char c) = true.
Proof.
  destruct c as [[] [] [] [] [] [] [] []]; vm_compute; reflexivity.
Qed.

Lemma quote_plus_encoded (s : string) : all_chars query_char (quote_plus s) = true.
Proof.
  unfold quote_plus. induction s as [|c s IH]; simpl; [reflexivity|].
  now rewrite all_chars_app, quote_plus_char_encoded, IH.
Qed.

Lemma join_all_chars (p : ascii -> bool) (sep : string) (parts : list string) :
  all_chars p sep = true ->
  (forall x, In x parts -> all_chars p x = true) ->
  all_chars p (PyStr.join sep parts) = true.
Proof.
  intros Hsep. induction parts as [|x rest IH]; intros H; [reflexivity|].
  destruct rest as [|y rest].
  - apply H. simpl. auto.
  - change (PyStr.join sep (x :: y :: rest))
      with (x ++ sep ++ PyStr.join sep (y :: rest))%string.
    rewrite !all_chars_app, Hsep, (H x (or_introl eq_refl)).
    simpl. apply IH. intros z Hz. apply H. simpl. auto.
Qed.

Lemma urlencode_encoded (d : list (string * string)) :
  all_chars query_char (urlencode d) = true.
Proof.
  unfold urlencode. apply join_all_chars; [reflexivity|].
  intros x Hx. apply in_map_iff in Hx. destruct Hx as ([k v] & <- & _).
  simpl. rewrite all_chars_app, quote_plus_encoded. simpl.
  apply quote_plus_encoded.
Qed.

Lemma build_filtered_empty (params : list (string * param)) :
  build_filtered params [] = []
  <-> existsb (fun kv => is_present (snd kv)) params = false.
Proof.
  assert (Hne : forall rest k r, build_filtered rest [(k, r)] <> []).
  { intros rest k r E.
    destruct (build_filtered_nonempty rest k r []) as (k' & v' & r' & E').
    rewrite E' in E. discriminate. }
  induction params as [|[k v] rest IH]; simpl; [tauto|].
  destruct v as [|t|z|b]; simpl; try exact IH;
    (split; [intros E; now apply Hne in E | discriminate]).
Qed.

(** X3. The result of [build_url] is the endpoint alone when no parameter
    has a value; otherwise it is the endpoint, a question mark and a query
    made only of unreserved characters and of the signs [+ % & =], so that no
    parameter value can add a space, a slash, a question mark or a fragment
    to the URL. *)
Theorem build_url_is_encoded :
  forall (endpoint : string) (params : list (string * param)),
    exists query,
      all_chars query_char query = true
      /\ build_url endpoint params
         = if existsb (fun kv => is_present (snd kv)) params
           then (endpoint ++ "?" ++ query)%string
           else endpoint.
Proof.
  intros endpoint params. unfold build_url.
  destruct (existsb _ params) eqn:E.
  - exists (urlencode (build_filtered params [])). split; [apply urlencode_encoded|].
    destruct (build_filtered params []) eqn:F; [|reflexivity].
    apply build_filtered_empty in F. congruence.
  - exists EmptyString. split; [reflexivity|].
    apply build_filtered_empty in E. now rewrite E.
Qed.

(** ** Failures of the transport *)

Lemma result_of_refusal (resp : DispatchResponse) :
  refuses resp ->
  result_of_dispatch resp
  = mkGhResult false JNull
      (Some (match dr_error resp with
             | Some e => message e
             | None => "Request failed"
             end)).
Proof.
  unfold result_of_dispatch. intros [H|H]; rewrite H; [reflexivity|].
  destruct (dr_success resp); reflexivity.
Qed.

Lemma error_or_refusal (resp : DispatchResponse) (fallback : string) :
  refuses resp ->
  error_or (result_of_dispatch resp) fallback = failure_message resp fallback.
Proof.
  intros H. rewrite (result_of_refusal resp H).
  unfold error_or, failure_message. simpl.
  destruct (dr_error resp); reflexivity.
Qed.

Lemma raise_after_refusal {A : Type} method path body_ fallback (k : GhResult -> Op A)
  T log :
  refuses (T log (mkRequest method path body_)) ->
  op_bind (request method path body_)
    (fun response => op_bind (raise_unless_success response fallback)
                       (fun _ => k response)) T log
  = (Raise (RuntimeError (failure_message (T log (mkRequest method path body_)) fallback)),
     (log ++ [mkRequest method path body_])%list).
Proof.
  intros H. rewrite op_bind_request, op_bind_raise_unless.
  rewrite <- (error_or_refusal _ fallback H).
  rewrite (result_of_refusal _ H) at 1. reflexivity.
Qed.

(** X4. When the transport does not deliver, a parsing tool raises a
    [RuntimeError] after its one request and returns no record.  The message
    is the transport's, the tool's own text only when that message is empty,
    and "Request failed" when the transport gave no error object. *)
Theorem transport_failure_is_runtime_error :
  forall (T : Transport) (log : list HttpRequest) (owner repo : string),
    validate_owner_repo owner repo = Return tt ->
    (forall n,
        let req := mkRequest GET
                     (repos_path owner repo ++ "/issues/" ++ PyStr.of_Z n)%string None in
        refuses (T log req) ->
        gh_get_issue owner repo n T log
        = (Raise (RuntimeError (failure_message (T log req) "Failed to get issue")),
           (log ++ [req])%list))
    /\ (let req := mkRequest GET (repos_path owner repo) None in
        refuses (T log req) ->
        gh_get_repo owner repo T log
        = (Raise (RuntimeError (failure_message (T log req) "Failed to get repo")),
           (log ++ [req])%list))
    /\ (forall n,
          let req := mkRequest GET
                       (repos_path owner repo ++ "/pulls/" ++ PyStr.of_Z n)%string None in
          refuses (T log req) ->
          gh_get_pr owner repo n T log
          = (Raise (RuntimeError (failure_message (T log req) "Failed to get PR")),
             (log ++ [req])%list))
    /\ (forall base head,
          let req := mkRequest GET
                       (repos_path owner repo ++ "/compare/" ++ base ++ "..." ++ head)%string
                       None in
          refuses (T log req) ->
          gh_compare owner repo base head T log
          = (Raise (RuntimeError
                      (failure_message (T log req)
                         ("Failed to compare " ++ base ++ "..." ++ head)%string)),
             (log ++ [req])%list))
    /\ (let req := mkRequest GET (repos_path owner repo ++ "/actions/workflows")%string
                     None in
        refuses (T log req) ->
        gh_list_workflows owner repo T log
        = (Raise (RuntimeError (failure_message (T log req) "Failed to list workflows")),
           (log ++ [req])%list))
    /\ (forall n text,
          let req := mkRequest POST
                       (repos_path owner repo ++ "/issues/" ++ PyStr.of_Z n
                          ++ "/comments")%string
                       (Some [("body", JStr text)]) in
          refuses (T log req) ->
          gh_create_comment owner repo n text T log
          = (Raise (RuntimeError (failure_message (T log req) "Failed to create comment")),
             (log ++ [req])%list)).
Proof.
  intros T log owner repo H.
  split; [|split; [|split; [|split; [|split]]]]; intros;
    cbv beta zeta delta [gh_get_issue gh_get_repo gh_get_pr gh_compare gh_list_workflows
                           gh_create_comment];
    rewrite H, op_bind_lift_Return;
    match goal with Hr : refuses _ |- _ => apply (raise_after_refusal _ _ _ _ _ _ _ Hr) end.
Qed.

(** X5. The tools that hand back the raw result do not raise on a failure of
    the transport: once the identifiers pass validation they dispatch one
    request and return what [request] built, success or failure. *)
Theorem raw_result_tools_pass_through :
  forall (T : Transport) (log : list HttpRequest) (owner repo : string),
    validate_owner_repo owner repo = Return tt ->
    (forall ref sha,
        let req := mkRequest POST (repos_path owner repo ++ "/git/refs")%string
                     (Some [("ref", JStr ref); ("sha", JStr sha)]) in
        gh_create_ref owner repo ref sha T log
        = (Return (result_of_dispatch (T log req)), (log ++ [req])%list))
    /\ (forall n,
          let req := mkRequest POST
                       (repos_path owner repo ++ "/actions/runs/" ++ PyStr.of_Z n
                          ++ "/rerun")%string None in
          gh_rerun_workflow owner repo n T log
          = (Return (result_of_dispatch (T log req)), (log ++ [req])%list))
    /\ (forall ref,
          validate_ref ref = Return tt ->
          let req := mkRequest GET
                       (repos_path owner repo ++ "/commits/" ++ ref ++ "/status")%string
                       None in
          gh_get_commit_status owner repo ref T log
          = (Return (result_of_dispatch (T log req)), (log ++ [req])%list))
    /\ (forall path ref,
          validate_path path = Return tt ->
          let req := mkRequest GET
                       (build_url (repos_path owner repo ++ "/contents/" ++ path)%string
                          [("ref", opt_param ref)])
                       None in
          gh_get_file owner repo path ref T log
          = (Return (result_of_dispatch (T log req)), (log ++ [req])%list)).
Proof.
  intros T log owner repo H.
  split; [|split; [|split]]; intros;
    cbv beta zeta delta [gh_create_ref gh_rerun_workflow gh_get_commit_status gh_get_file];
    rewrite H, op_bind_lift_Return;
    try match goal with Hv : _ = Return tt |- _ => rewrite Hv, op_bind_lift_Return end;
    reflexivity.
Qed.

(** X6. [gh_delete_branch] stops on an empty branch name with a [ValueError]
    and no request; any other name, unchecked, is put after [refs/heads/] in
    the path of its one DELETE request. *)
Theorem delete_branch_guard :
  forall (T : Transport) (log : list HttpRequest) (owner repo branch_ : string),
    validate_owner_repo owner repo = Return tt ->
    gh_delete_branch owner repo branch_ T log
    = if PyStr.is_empty branch_
      then (Raise (ValueError "Branch name cannot be empty"), log)
      else
        let req := mkRequest DELETE
                     (repos_path owner repo ++ "/git/refs/heads/" ++ branch_)%string None in
        (Return (result_of_dispatch (T log req)), (log ++ [req])%list).
Proof.
  intros T log owner repo b H.
  unfold gh_delete_branch. rewrite H, op_bind_lift_Return.
  destruct (PyStr.is_empty b); reflexivity.
Qed.

(** ** The stages of the CI diagnosis *)

Lemma diagnosis_stages owner repo run_id_ branch_ :
  gh_ci_diagnosis owner repo run_id_ branch_
  = op_bind (op_lift (validate_owner_repo owner repo))
      (fun _ => op_bind (resolve_run owner repo run_id_ branch_)
                  (diagnose_run owner repo)).
Proof. reflexivity. Qed.

Lemma diagnose_run_trace owner repo run T log :
  exists sent,
    snd (diagnose_run owner repo run T log) = (log ++ sent)%list
    /\ (length sent <= 1)%nat
    /\ Forall is_plain_get sent.
Proof.
  unfold diagnose_run. rewrite snd_op_bind_lift.
  destruct (get run "id") as [v_id|e].
  2:{ exists []. rewrite app_nil_r. auto. }
  rewrite snd_op_bind_lift.
  destruct (_int v_id 0) as [k|e].
  2:{ exists []. rewrite app_nil_r. auto. }
  rewrite op_bind_request, op_bind_raise_unless.
  eexists [_]. split; [destruct (success _); reflexivity|].
  split; [simpl; auto|]. repeat constructor.
Qed.

Lemma resolve_run_trace owner repo run_id_ branch_ T log :
  exists sent,
    snd (resolve_run owner repo run_id_ branch_ T log) = (log ++ sent)%list
    /\ (length sent <= 1)%nat
    /\ Forall is_plain_get sent.
Proof.
  unfold resolve_run.
  destruct (truthy_int run_id_) as [n|]; [|destruct (truthy_text branch_) as [b|]].
  - rewrite op_bind_request, op_bind_raise_unless.
    eexists [_]. split; [destruct (success _); reflexivity|].
    split; [simpl; auto|]. repeat constructor.
  - rewrite op_bind_request, op_bind_raise_unless.
    eexists [_]. split.
    + destruct (success _); [|reflexivity].
      rewrite snd_op_bind_lift.
      destruct (if is_dict _ then _ else _) as [runs|e]; [|reflexivity].
      destruct (truthy runs); reflexivity.
    + split; [simpl; auto|]. repeat constructor.
  - exists []. rewrite app_nil_r. auto.
Qed.

Lemma snd_op_bind {A B : Type} (m : Op A) (k : A -> Op B) T log :
  snd (op_bind m k T log)
  = match fst (m T log) with
    | Return a => snd (k a T (snd (m T log)))
    | Raise _ => snd (m T log)
    end.
Proof. unfold op_bind. destruct (m T log) as [[a|e] l]; reflexivity. Qed.

(** X7. Whatever its arguments and whatever the transport answers,
    [gh_ci_diagnosis] dispatches at most two requests, each a GET without a
    body, appended to the log in order. *)
Theorem diagnosis_sends_at_most_two_requests :
  forall (T : Transport) (log : list HttpRequest) (owner repo : string)
         (run_id_ : option Z) (branch_ : option string),
    exists sent,
      snd (gh_ci_diagnosis owner repo run_id_ branch_ T log) = (log ++ sent)%list
      /\ (length sent <= 2)%nat
      /\ Forall is_plain_get sent.
Proof.
  intros T log owner repo rid br. rewrite diagnosis_stages, snd_op_bind_lift.
  destruct (validate_owner_repo owner repo) as [[]|e].
  2:{ exists []. rewrite app_nil_r. simpl. auto. }
  rewrite snd_op_bind.
  destruct (resolve_run_trace owner repo rid br T log) as (s1 & E1 & L1 & F1).
  destruct (fst (resolve_run owner repo rid br T log)) as [run|e].
  - destruct (diagnose_run_trace owner repo run T
                (snd (resolve_run owner repo rid br T log))) as (s2 & E2 & L2 & F2).
    exists (s1 ++ s2)%list. rewrite E2, E1, <- app_assoc. split; [reflexivity|].
    split; [rewrite length_app; lia | now apply Forall_app].
  - exists s1. split; [exact E1|]. split; [lia | exact F1].
Qed.

(** X8. With a valid owner and repository, a call without a usable selector
    ([run_id] absent or 0 and [branch] absent or empty) raises the
    [RuntimeError] "Provide either run_id or branch" and dispatches
    nothing. *)
Theorem diagnosis_needs_a_selector :
  forall (T : Transport) (log : list HttpRequest) (owner repo : string)
         (run_id_ : option Z) (branch_ : option string),
    validate_owner_repo owner repo = Return tt ->
    truthy_int run_id_ = None ->
    truthy_text branch_ = None ->
    gh_ci_diagnosis owner repo run_id_ branch_ T log
    = (Raise (RuntimeError "Provide either run_id or branch"), log).
Proof.
  intros T log owner repo rid br H Hr Hb.
  rewrite diagnosis_stages, H, op_bind_lift_Return.
  unfold resolve_run. rewrite Hr, Hb. reflexivity.
Qed.

(** X9. After a successful fetch of the run, the jobs are requested for the
    id found in the payload, and that id is the [run_id] of the diagnosis:
    the [run_id] argument only selects the run to fetch.  The id is 0 when
    the payload is not an object or holds no id. *)
Theorem jobs_follow_the_payload_id :
  forall (T : Transport) (log : list HttpRequest) (owner repo : string) (n k : Z)
         (branch_ : option string) (payload : JSON),
    let r1 := mkRequest GET
                (repos_path owner repo ++ "/actions/runs/" ++ PyStr.of_Z n)%string None in
    let r2 := mkRequest GET
                (repos_path owner repo ++ "/actions/runs/" ++ PyStr.of_Z k ++ "/jobs")%string
                None in
    validate_owner_repo owner repo = Return tt ->
    n <> 0 ->
    answers_with (T log r1) payload ->
    bind (get (dict_or_empty payload) "id") (fun v => _int v 0) = Return k ->
    snd (gh_ci_diagnosis owner repo (Some n) branch_ T log) = (log ++ [r1; r2])%list
    /\ (forall info,
          fst (gh_ci_diagnosis owner repo (Some n) branch_ T log) = Return info ->
          run_id info = k)
    /\ (is_dict payload = false -> k = 0).
Proof.
  intros T log owner repo n k br payload r1 r2 H Hn Ha Hk.
  assert (Hrun : gh_ci_diagnosis owner repo (Some n) br T log
                 = diagnose_run owner repo (dict_or_empty payload) T (log ++ [r1])%list).
  { rewrite diagnosis_stages, H, op_bind_lift_Return.
    unfold resolve_run. rewrite (truthy_int_nonzero n Hn).
    rewrite !op_bind_assoc, op_bind_request. fold r1.
    rewrite (result_of_answer _ _ Ha), op_bind_assoc, op_bind_raise_unless.
    reflexivity. }
  rewrite Hrun. clear Hrun.
  apply bind_Return_inv in Hk. destruct Hk as (v_id & Hget & Hint).
  unfold diagnose_run. rewrite Hget, op_bind_lift_Return, Hint, op_bind_lift_Return.
  rewrite op_bind_request. fold r2. rewrite op_bind_raise_unless.
  split; [|split].
  - destruct (success _); [rewrite snd_op_lift|simpl]; now rewrite <- app_assoc.
  - intros info. destruct (success _); [|discriminate].
    unfold op_lift. simpl fst. intros E.
    do 7 (apply bind_Return_inv in E; destruct E as (? & _ & E)).
    inversion E. reflexivity.
  - intros Hshape. unfold dict_or_empty in Hget. rewrite Hshape in Hget.
    inversion Hget. subst v_id. inversion Hint. reflexivity.
Qed.

(** X10. On the branch path, when the successful answer holds no run (the
    payload is not an object, has no [workflow_runs], or that value is
    falsy), the call raises "No workflow runs found for branch ..." with the
    [repr] of the branch, after its single request. *)
Theorem branch_without_runs :
  forall (T : Transport) (log : list HttpRequest) (owner repo b : string)
         (run_id_ : option Z) (payload runs : JSON),
    let r1 := mkRequest GET (branch_runs_url owner repo b) None in
    validate_owner_repo owner repo = Return tt ->
    truthy_int run_id_ = None ->
    PyStr.is_empty b = false ->
    answers_with (T log r1) payload ->
    items_under payload "workflow_runs" = Return runs ->
    truthy runs = false ->
    gh_ci_diagnosis owner repo run_id_ (Some b) T log
    = (Raise (RuntimeError ("No workflow runs found for branch " ++ PyStr.repr b)%string),
       (log ++ [r1])%list).
Proof.
  intros T log owner repo b rid payload runs r1 H Hr Hb Ha Hruns Hfalsy.
  rewrite diagnosis_stages, H, op_bind_lift_Return.
  unfold resolve_run, truthy_text. rewrite Hr, Hb.
  rewrite !op_bind_assoc, op_bind_request. fold r1.
  rewrite (result_of_answer _ _ Ha), op_bind_assoc, op_bind_raise_unless.
  simpl success. cbv iota. simpl data.
  unfold items_under in Hruns. rewrite op_bind_assoc, Hruns, op_bind_lift_Return.
  rewrite Hfalsy. reflexivity.
Qed.

(** ** What the coercions and the parsers can raise *)

(** X11. The only exception [_int] lets out is the [OverflowError] of an
    infinite float: a [TypeError] or a [ValueError] of [int()] always becomes
    the default. *)
Theorem _int_raises_only_on_infinity :
  forall (val : JSON) (default : Z) (e : exn),
    _int val default = Raise e ->
    e = Builtin OverflowError /\ exists negative, val = JFloat (S754_infinity negative).
Proof.
  intros val default e. unfold _int.
  destruct val as [|b|z|f|t|l|d]; simpl; try discriminate.
  - destruct f as [sg|sg| |sg m ex]; simpl; try discriminate.
    intros H. inversion H. eauto.
  - destruct (PyStr.to_Z t); simpl; discriminate.
Qed.

Lemma _labels_never_raises (val : JSON) (e : exn) : _labels val <> Raise e.
Proof. destruct (_labels_returns val) as [l ->]. discriminate. Qed.

Lemma _nested_str_never_raises (obj : JSON) (key : string) (e : exn) :
  _nested_str obj key <> Raise e.
Proof. destruct (_nested_str_returns obj key) as [r ->]. discriminate. Qed.

(** X12. [_parse_issue] fails in two ways only: with an [AttributeError] on
    a value that is not an object, and with the [OverflowError] of an
    infinite [number]; on every other object it returns a record. *)
Theorem _parse_issue_failures :
  forall (raw : JSON) (e : exn),
    _parse_issue raw = Raise e ->
    (is_dict raw = false /\ e = Builtin AttributeError)
    \/ (exists d negative,
           raw = JObj d
           /\ dict_get d "number" = Some (JFloat (S754_infinity negative))
           /\ e = Builtin OverflowError).
Proof.
  intros raw e H.
  destruct raw as [| | | | | |d];
    try (left; simpl in H; inversion H; auto; fail).
  right. unfold _parse_issue, get, get_or in H. simpl in H.
  destruct (_int _ 0) as [z|e0] eqn:Hint.
  - simpl in H.
    destruct (_nested_str _ "login") as [a|e1] eqn:Hn;
      [|exfalso; exact (_nested_str_never_raises _ _ _ Hn)].
    simpl in H.
    destruct (_labels _) as [ls|e2] eqn:Hl;
      [|exfalso; exact (_labels_never_raises _ _ Hl)].
    simpl in H. discriminate.
  - simpl in H. inversion H. subst e0.
    apply _int_raises_only_on_infinity in Hint. destruct Hint as [-> [sg Hv]].
    exists d, sg. destruct (dict_get d "number") as [x|]; [|discriminate].
    subst x. auto.
Qed.

(** X13. [_labels] returns, for an array, the text of the [name] of each
    entry that is an object with a truthy [name], in the order of the array,
    and the empty list for anything that is not an array. *)
Theorem _labels_keeps_truthy_names :
  forall val : JSON,
    _labels val
    = Return (match val with
              | JArr l =>
                  map (fun label => _str (name_field label) EmptyString)
                    (filter (fun label => is_dict label && truthy (name_field label)) l)
              | _ => []
              end).
Proof.
  intros val. destruct val; try reflexivity. apply labels_of_filter.
Qed.

(** ** Lists of commits and statuses *)

Lemma map_result_map {A B : Type} (f : A -> result B) (g : A -> B) (l : list A) :
  (forall x, In x l -> f x = Return (g x)) ->
  map_result f l = Return (map g l).
Proof.
  induction l as [|x l IH]; intros H; [reflexivity|].
  simpl. rewrite (H x (or_introl eq_refl)). simpl.
  rewrite IH; [reflexivity|]. intros y Hy. apply H. simpl. auto.
Qed.

Lemma parse_commit_entry_object (d : JSONObject) :
  parse_commit_entry (JObj d) = Return (commit_of (JObj d)).
Proof.
  unfold parse_commit_entry, commit_of, get, get_or, subfield, field. simpl.
  destruct (dict_get d "commit") as [[| | | | | |c]|]; simpl;
    destruct (dict_get d "author") as [[| | | | | |a]|]; simpl; try reflexivity;
    destruct (dict_get c "author") as [[| | | | | |ca]|]; simpl; reflexivity.
Qed.

Lemma parse_status_entry_object (d : JSONObject) :
  parse_status_entry (JObj d) = Return (status_of (JObj d)).
Proof. reflexivity. Qed.

Lemma objects_are_JObj (items : list JSON) :
  Forall (fun item => is_dict item = true) items ->
  forall x, In x items -> exists d, x = JObj d.
Proof.
  intros H x Hx. rewrite Forall_forall in H. specialize (H x Hx).
  destruct x; try discriminate. eauto.
Qed.

(** X14. On a successful list of object entries, [gh_list_commits] never
    raises: it returns one record per entry, in order, with the login of the
    entry's own [author] as author and the message and date of the nested
    [commit]; a [commit] or an [author] that is missing or not an object
    gives the empty message and no author or date. *)
Theorem list_commits_reads_every_object :
  forall (T : Transport) (log : list HttpRequest) (owner repo : string)
         (sha path author : option string) (per_page page : Z) (items : list JSON),
    let req := mkRequest GET
                 (build_url (repos_path owner repo ++ "/commits")%string
                    [("sha", opt_param sha); ("path", opt_param path);
                     ("author", opt_param author);
                     ("per_page", PInt per_page); ("page", PInt page)])
                 None in
    validate_owner_repo owner repo = Return tt ->
    answers_with (T log req) (JArr items) ->
    Forall (fun item => is_dict item = true) items ->
    gh_list_commits owner repo sha path author per_page page T log
    = (Return (map commit_of items), (log ++ [req])%list).
Proof.
  intros T log owner repo sha path author per_page page items req H Ha Hd.
  unfold gh_list_commits. rewrite H, op_bind_lift_Return.
  cbv zeta. rewrite op_bind_request. fold req.
  rewrite (result_of_answer _ _ Ha), op_bind_raise_unless. simpl.
  unfold op_lift. rewrite (map_result_map _ commit_of); [reflexivity|].
  intros x Hx. destruct (objects_are_JObj items Hd x Hx) as [d ->].
  apply parse_commit_entry_object.
Qed.

(** X15. [gh_list_commit_statuses] checks the ref, and on a successful
    list of object entries returns one status per entry, in order, without
    raising. *)
Theorem list_commit_statuses_reads_every_object :
  forall (T : Transport) (log : list HttpRequest) (owner repo ref : string)
         (items : list JSON),
    let req := mkRequest GET
                 (repos_path owner repo ++ "/commits/" ++ ref ++ "/statuses")%string
                 None in
    validate_owner_repo owner repo = Return tt ->
    validate_ref ref = Return tt ->
    answers_with (T log req) (JArr items) ->
    Forall (fun item => is_dict item = true) items ->
    gh_list_commit_statuses owner repo ref T log
    = (Return (map status_of items), (log ++ [req])%list).
Proof.
  intros T log owner repo ref items req H Hr Ha Hd.
  unfold gh_list_commit_statuses.
  rewrite H, op_bind_lift_Return, Hr, op_bind_lift_Return.
  rewrite op_bind_request. fold req.
  rewrite (result_of_answer _ _ Ha), op_bind_raise_unless. simpl.
  unfold op_lift. rewrite (map_result_map _ status_of); [reflexivity|].
  intros x Hx. destruct (objects_are_JObj items Hd x Hx) as [d ->].
  apply parse_status_entry_object.
Qed.

(** ** Payloads of an unexpected shape *)

Lemma list_or_empty_not_list (payload : JSON) :
  is_list payload = false -> list_or_empty payload = [].
Proof. destruct payload; simpl; intros H; try reflexivity. discriminate. Qed.

(** X16. A flat list tool whose successful payload is not an array returns
    the empty list after its one request, without raising: the wrong shape
    cannot be told from an empty page. *)
Theorem flat_lists_default_to_empty :
  forall (T : Transport) (log : list HttpRequest) (owner repo : string) (payload : JSON),
    validate_owner_repo owner repo = Return tt ->
    is_list payload = false ->
    (forall per_page page,
        let req := mkRequest GET
                     (build_url (repos_path owner repo ++ "/branches")%string
                        [("per_page", PInt per_page); ("page", PInt page)]) None in
        answers_with (T log req) payload ->
        gh_list_branches owner repo per_page page T log = (Return [], (log ++ [req])%list))
    /\ (forall n per_page page,
          let req := mkRequest GET
                       (build_url
                          (repos_path owner repo ++ "/issues/" ++ PyStr.of_Z n
                             ++ "/comments")%string
                          [("per_page", PInt per_page); ("page", PInt page)]) None in
          answers_with (T log req) payload ->
          gh_list_comments owner repo n per_page page T log
          = (Return [], (log ++ [req])%list))
    /\ (forall state per_page page,
          let req := mkRequest GET
                       (build_url (repos_path owner repo ++ "/pulls")%string
                          [("state", PStr state); ("per_page", PInt per_page);
                           ("page", PInt page)]) None in
          answers_with (T log req) payload ->
          gh_list_prs owner repo state per_page page T log
          = (Return [], (log ++ [req])%list))
    /\ (forall n per_page page,
          let req := mkRequest GET
                       (build_url
                          (repos_path owner repo ++ "/pulls/" ++ PyStr.of_Z n
                             ++ "/files")%string
                          [("per_page", PInt per_page); ("page", PInt page)]) None in
          answers_with (T log req) payload ->
          gh_list_pr_files owner repo n per_page page T log
          = (Return [], (log ++ [req])%list))
    /\ (forall n per_page page,
          let req := mkRequest GET
                       (build_url
                          (repos_path owner repo ++ "/pulls/" ++ PyStr.of_Z n
                             ++ "/reviews")%string
                          [("per_page", PInt per_page); ("page", PInt page)]) None in
          answers_with (T log req) payload ->
          gh_list_pr_reviews owner repo n per_page page T log
          = (Return [], (log ++ [req])%list))
    /\ (forall state labels assignee per_page page,
          let req := mkRequest GET
                       (build_url (repos_path owner repo ++ "/issues")%string
                          [("state", PStr state); ("labels", opt_param labels);
                           ("assignee", opt_param assignee);
                           ("per_page", PInt per_page); ("page", PInt page)]) None in
          answers_with (T log req) payload ->
          gh_list_issues owner repo state labels assignee per_page page T log
          = (Return [], (log ++ [req])%list)).
Proof.
  intros T log owner repo payload H Hshape.
  pose proof (list_or_empty_not_list payload Hshape) as Hempty.
  split; [|split; [|split; [|split; [|split]]]]; intros;
    match goal with x := _ : HttpRequest |- _ => subst x end;
    cbv beta zeta delta [gh_list_branches gh_list_comments gh_list_prs gh_list_pr_files
                           gh_list_pr_reviews gh_list_issues];
    rewrite H, op_bind_lift_Return, op_bind_request;
    match goal with Ha : answers_with _ _ |- _ => rewrite (result_of_answer _ _ Ha) end;
    rewrite op_bind_raise_unless; simpl; rewrite Hempty; reflexivity.
Qed.

Lemma items_under_absent (payload : JSON) (key : string) :
  (is_dict payload = false
   \/ exists d, payload = JObj d /\ dict_get d key = None) ->
  items_under payload key = Return (JArr []).
Proof.
  intros [H|(d & -> & H)]; unfold items_under.
  - now rewrite H.
  - simpl. now rewrite H.
Qed.

(** X17. A list tool that reads its entries under a key ([workflows],
    [workflow_runs], [check_runs]) returns the empty list when the
    successful payload is not an object or is an object without that key,
    whatever other keys it has. *)
Theorem nested_lists_default_to_empty :
  forall (T : Transport) (log : list HttpRequest) (owner repo : string) (payload : JSON),
    validate_owner_repo owner repo = Return tt ->
    (let req := mkRequest GET (repos_path owner repo ++ "/actions/workflows")%string None in
     (is_dict payload = false
      \/ exists d, payload = JObj d /\ dict_get d "workflows" = None) ->
     answers_with (T log req) payload ->
     gh_list_workflows owner repo T log = (Return [], (log ++ [req])%list))
    /\ (forall workflow_id per_page,
          let req := mkRequest GET
                       (match truthy_int workflow_id with
                        | Some w =>
                            build_url
                              (repos_path owner repo ++ "/actions/workflows/"
                                 ++ PyStr.of_Z w ++ "/runs")%string
                              [("per_page", PInt per_page)]
                        | None =>
                            build_url (repos_path owner repo ++ "/actions/runs")%string
                              [("per_page", PInt per_page)]
                        end) None in
          (is_dict payload = false
           \/ exists d, payload = JObj d /\ dict_get d "workflow_runs" = None) ->
          answers_with (T log req) payload ->
          gh_list_workflow_runs owner repo workflow_id per_page T log
          = (Return [], (log ++ [req])%list))
    /\ (forall ref per_page page,
          validate_ref ref = Return tt ->
          let req := mkRequest GET
                       (build_url
                          (repos_path owner repo ++ "/commits/" ++ ref
                             ++ "/check-runs")%string
                          [("per_page", PInt per_page); ("page", PInt page)]) None in
          (is_dict payload = false
           \/ exists d, payload = JObj d /\ dict_get d "check_runs" = None) ->
          answers_with (T log req) payload ->
          gh_list_check_runs owner repo ref per_page page T log
          = (Return [], (log ++ [req])%list)).
Proof.
  intros T log owner repo payload H.
  split; [|split].
  - intros req Habsent Ha. unfold gh_list_workflows.
    rewrite H, op_bind_lift_Return, op_bind_request. fold req.
    rewrite (result_of_answer _ _ Ha), op_bind_raise_unless. simpl.
    rewrite (items_under_absent _ _ Habsent). reflexivity.
  - intros wid per_page req Habsent Ha. unfold gh_list_workflow_runs.
    rewrite H, op_bind_lift_Return. cbv zeta. rewrite op_bind_request. fold req.
    rewrite (result_of_answer _ _ Ha), op_bind_raise_unless. simpl.
    rewrite (items_under_absent _ _ Habsent). reflexivity.
  - intros ref per_page page Hr req Habsent Ha. unfold gh_list_check_runs.
    rewrite H, op_bind_lift_Return, Hr, op_bind_lift_Return.
    cbv zeta. rewrite op_bind_request. fold req.
    rewrite (result_of_answer _ _ Ha), op_bind_raise_unless. simpl.
    rewrite (items_under_absent _ _ Habsent). reflexivity.
Qed.

(** X18. The default of [get(key, [])] covers a missing key only: when the
    successful payload of [gh_list_workflows] is an object whose [workflows]
    is null, the loop over [None] raises a [TypeError] and no list is
    returned; so does [gh_list_check_runs] on a null [check_runs]. *)
Theorem null_entries_raise_type_error :
  forall (T : Transport) (log : list HttpRequest) (owner repo : string) (d : JSONObject),
    validate_owner_repo owner repo = Return tt ->
    (let req := mkRequest GET (repos_path owner repo ++ "/actions/workflows")%string None in
     dict_get d "workflows" = Some JNull ->
     answers_with (T log req) (JObj d) ->
     gh_list_workflows owner repo T log
     = (Raise (Builtin TypeError), (log ++ [req])%list))
    /\ (forall ref per_page page,
          validate_ref ref = Return tt ->
          let req := mkRequest GET
                       (build_url
                          (repos_path owner repo ++ "/commits/" ++ ref
                             ++ "/check-runs")%string
                          [("per_page", PInt per_page); ("page", PInt page)]) None in
          dict_get d "check_runs" = Some JNull ->
          answers_with (T log req) (JObj d) ->
          gh_list_check_runs owner repo ref per_page page T log
          = (Raise (Builtin TypeError), (log ++ [req])%list)).
Proof.
  intros T log owner repo d H. split.
  - intros req Hn Ha. unfold gh_list_workflows.
    rewrite H, op_bind_lift_Return, op_bind_request. fold req.
    rewrite (result_of_answer _ _ Ha), op_bind_raise_unless. simpl.
    unfold items_under. simpl. rewrite Hn. reflexivity.
  - intros ref per_page page Hr req Hn Ha. unfold gh_list_check_runs.
    rewrite H, op_bind_lift_Return, Hr, op_bind_lift_Return.
    cbv zeta. rewrite op_bind_request. fold req.
    rewrite (result_of_answer _ _ Ha), op_bind_raise_unless. simpl.
    unfold items_under. simpl. rewrite Hn. reflexivity.
Qed.

(** ** Search *)

(** X19. The search tools validate nothing and dispatch one GET.  On a
    successful object they hand the [items] array back entry by entry as it
    came, unparsed, with the coerced count and flag; [items] that is not an
    array, and a payload that is not an object, give the empty result. *)
Theorem search_hands_items_back :
  forall (T : Transport) (log : list HttpRequest) (q : string) (per_page page : Z)
         (payload : JSON) (total : Z),
    let req := mkRequest GET
                 (build_url "/search/code"
                    [("q", PStr q); ("per_page", PInt per_page); ("page", PInt page)])
                 None in
    answers_with (T log req) payload ->
    _int (subfield payload "total_count") 0 = Return total ->
    gh_search_code q per_page page T log
    = (Return (mkSearchResult total
                 (_bool (subfield payload "incomplete_results") false)
                 (list_or_empty (subfield payload "items"))),
       (log ++ [req])%list)
    /\ (is_dict payload = false ->
        gh_search_code q per_page page T log
        = (Return (mkSearchResult 0 false []), (log ++ [req])%list)).
Proof.
  intros T log q per_page page payload total req Ha Ht.
  assert (E : gh_search_code q per_page page T log
              = (Return (mkSearchResult total
                           (_bool (subfield payload "incomplete_results") false)
                           (list_or_empty (subfield payload "items"))),
                 (log ++ [req])%list)).
  { unfold gh_search_code, search. cbv zeta. rewrite op_bind_request. fold req.
    rewrite (result_of_answer _ _ Ha), op_bind_raise_unless. simpl.
    unfold op_lift, dict_or_empty.
    destruct payload as [| | | | | |d]; simpl in *;
      try (inversion Ht; subst total; reflexivity).
    unfold field in Ht. unfold get, get_or, field. simpl.
    rewrite Ht. reflexivity. }
  split; [exact E|].
  intros Hshape. rewrite E.
  destruct payload; try discriminate Hshape; simpl in Ht; inversion Ht; reflexivity.
Qed.

(** ** Jobs and their steps *)

Lemma map_result_length {A B : Type} (f : A -> result B) (l : list A) (l' : list B) :
  map_result f l = Return l' -> length l' = length l.
Proof.
  revert l'. induction l as [|x l IH]; simpl; intros l' H.
  - inversion H. reflexivity.
  - destruct (f x) as [y|e]; [|discriminate]. simpl in H.
    destruct (map_result f l) as [ys|e]; [|discriminate]. simpl in H.
    inversion H. simpl. f_equal. now apply IH.
Qed.

(** X20. A job that [_parse_job] returns has one step per entry of the
    [steps] array of the raw job, and no step at all when [steps] is missing
    or is not an array. *)
Theorem _parse_job_steps :
  forall (d : JSONObject) (job : WorkflowJobInfo),
    _parse_job (JObj d) = Return job ->
    length (job_steps job) = length (list_or_empty (field d "steps")).
Proof.
  intros d job H. unfold _parse_job, get, get_or in H. unfold field.
  simpl in H.
  destruct (dict_get d "steps") as [[| | | | |l|o]|]; simpl in H;
    try (destruct (_int _ 0); simpl in H; [|discriminate];
         inversion H; reflexivity).
  destruct (map_result parse_step l) as [steps|e] eqn:Hs; simpl in H; [|discriminate].
  destruct (_int _ 0); simpl in H; [|discriminate].
  inversion H. simpl. now apply (map_result_length parse_step).
Qed.

(** ** Payloads of the write tools *)

(** X21. [gh_update_issue] has no guard against an empty update: with every
    optional argument absent it still dispatches its PATCH, with the empty
    object as payload, where [gh_update_pr] raises before any request. *)
Theorem update_issue_sends_empty_payload :
  forall (T : Transport) (log : list HttpRequest) (owner repo : string) (n : Z),
    validate_owner_repo owner repo = Return tt ->
    sends (gh_update_issue owner repo n None None None None None) T log
      PATCH (repos_path owner repo ++ "/issues/" ++ PyStr.of_Z n)%string []
    /\ gh_update_pr owner repo n None None None None T log
       = (Raise (ValueError
                   "At least one field (title, body, state, base) must be provided"),
          log).
Proof.
  intros T log owner repo n H. split.
  - unfold sends, gh_update_issue. rewrite H, op_bind_lift_Return.
    apply snd_after_request.
  - unfold gh_update_pr. rewrite H. reflexivity.
Qed.

(** X22. The payload of [gh_create_pr] always carries [title], [head],
    [base] and [draft], the last one also when it is false. *)
Theorem create_pr_required_fields :
  forall (T : Transport) (log : list HttpRequest) (owner repo title head base : string)
         (b : option string) (draft : bool),
    validate_owner_repo owner repo = Return tt ->
    exists payload,
      sends (gh_create_pr owner repo title head base b draft) T log
        POST (repos_path owner repo ++ "/pulls")%string payload
      /\ dict_get payload "title" = Some (JStr title)
      /\ dict_get payload "head" = Some (JStr head)
      /\ dict_get payload "base" = Some (JStr base)
      /\ dict_get payload "draft" = Some (JBool draft).
Proof.
  intros T log owner repo title head base b draft H.
  eexists. split.
  - unfold sends, gh_create_pr. rewrite H, op_bind_lift_Return.
    apply snd_after_request.
  - repeat split; rewrite get_set_if_truthy; destruct (truthy_text b); reflexivity.
Qed.

(** ** Validation in the listing tools *)

(** X23. Every listing tool that takes an owner and a repository raises the
    guard's [ValueError] and dispatches nothing when the pair is rejected. *)
Theorem listing_tools_validate_first :
  forall (T : Transport) (log : list HttpRequest) (owner repo : string) (e : exn),
    validate_owner_repo owner repo = Raise e ->
    (forall per_page page,
        gh_list_branches owner repo per_page page T log = (Raise e, log))
    /\ (forall n per_page page,
          gh_list_comments owner repo n per_page page T log = (Raise e, log))
    /\ (forall n text, gh_create_comment owner repo n text T log = (Raise e, log))
    /\ (forall state per_page page,
          gh_list_prs owner repo state per_page page T log = (Raise e, log))
    /\ (forall n per_page page,
          gh_list_pr_files owner repo n per_page page T log = (Raise e, log))
    /\ (forall n per_page page,
          gh_list_pr_reviews owner repo n per_page page T log = (Raise e, log))
    /\ (forall sha path author per_page page,
          gh_list_commits owner repo sha path author per_page page T log = (Raise e, log))
    /\ (forall ref, gh_list_commit_statuses owner repo ref T log = (Raise e, log))
    /\ (forall ref per_page page,
          gh_list_check_runs owner repo ref per_page page T log = (Raise e, log))
    /\ gh_list_workflows owner repo T log = (Raise e, log)
    /\ (forall workflow_id per_page,
          gh_list_workflow_runs owner repo workflow_id per_page T log = (Raise e, log)).
Proof.
  intros T log owner repo e H.
  repeat split; intros;
    cbv beta delta [gh_list_branches gh_list_comments gh_create_comment gh_list_prs
                      gh_list_pr_files gh_list_pr_reviews gh_list_commits
                      gh_list_commit_statuses gh_list_check_runs gh_list_workflows
                      gh_list_workflow_runs];
    rewrite H; reflexivity.
Qed.

End Runtime.

(* ================================================================== *)
(** * The properties on the scenarios                                    *)
(* ================================================================== *)

Local Open Scope string_scope.

(** C1 on the end-to-end scenario of the specification: run 42, two jobs,
    the second one failed. *)
Lemma ci_diagnosis_partition_witness :
  gh_ci_diagnosis plain_printer "octocat" "hello" (Some 42) None scenario_transport []
  = (Return scenario_diagnosis,
     [mkRequest GET "/repos/octocat/hello/actions/runs/42" None;
      mkRequest GET "/repos/octocat/hello/actions/runs/42/jobs" None])
  /\ failed_jobs scenario_diagnosis = filter is_failure (jobs scenario_diagnosis)
  /\ (forall j, In j (failed_jobs scenario_diagnosis) ->
                In j (jobs scenario_diagnosis) /\ job_conclusion j = Some "failure")
  /\ (forall j, In j (jobs scenario_diagnosis) ->
                ~ In j (failed_jobs scenario_diagnosis) ->
                job_conclusion j <> Some "failure").
Proof.
  split; [reflexivity|].
  apply (ci_diagnosis_partition plain_printer scenario_transport []
           [mkRequest GET "/repos/octocat/hello/actions/runs/42" None;
            mkRequest GET "/repos/octocat/hello/actions/runs/42/jobs" None]
           "octocat" "hello" (Some 42) None scenario_diagnosis).
  reflexivity.
Defined.

(** On the scenario: with [run_id] 0 and a branch both supplied, the call
    asks for the branch-filtered run list and never fetches a run by id. *)
Lemma run_id_zero_lists_branch_runs :
  dispatched (gh_ci_diagnosis plain_printer "octocat" "hello" (Some 0) (Some "main"))
    scenario_transport
  = [mkRequest GET "/repos/octocat/hello/actions/runs?branch=main&per_page=1" None;
     mkRequest GET "/repos/octocat/hello/actions/runs/42/jobs" None].
Proof. reflexivity. Qed.

(** Run 42 with a branch beside it: the run is fetched by its id. *)
Lemma run_id_precedence_witness :
  42 <> 0
  /\ exists sent,
      snd (gh_ci_diagnosis plain_printer "octocat" "hello" (Some 42) (Some "main")
             scenario_transport [])
      = ([] ++ sent)%list
      /\ (forall r b, In r sent -> req_path r <> branch_runs_url "octocat" "hello" b)
      /\ (validate_owner_repo "octocat" "hello" = Return tt ->
          exists rest,
            sent = mkRequest GET
                     (repos_path "octocat" "hello" ++ "/actions/runs/" ++ PyStr.of_Z 42)
                     None :: rest).
Proof.
  split; [discriminate|].
  apply (run_id_precedence plain_printer scenario_transport [] "octocat" "hello" 42
           (Some "main")).
  discriminate.
Defined.

(** C4 as stated fails: the message of [validate_path] for an absolute path
    does not contain the path. *)
Lemma validate_path_message_omits_value :
  validate_path "/etc/passwd" = Raise (ValueError "File path must be relative")
  /\ PyStr.contains "/etc/passwd" "File path must be relative" = false.
Proof. split; reflexivity. Qed.

(** C5 as stated fails: an empty [body] given to [gh_create_issue] is not in
    the payload that is dispatched. *)
Lemma create_issue_drops_empty_body :
  dispatched (gh_create_issue plain_printer "octocat" "hello" "Bug" (Some EmptyString)
                None None)
    (constant_transport (refused "no"))
  = [mkRequest POST "/repos/octocat/hello/issues" (Some [("title", JStr "Bug")])]
  /\ dict_get [("title", JStr "Bug")] "body" = None.
Proof. split; reflexivity. Qed.

(** The payloads of [gh_create_issue] and [gh_dispatch_workflow] hold every
    label and every input that the caller gives. *)
Lemma create_issue_sends_every_label :
  dispatched (gh_create_issue plain_printer "octocat" "hello" "Bug" None
                (Some ["bug"; "ui"]) (Some ["alice"]))
    (constant_transport (refused "no"))
  = [mkRequest POST "/repos/octocat/hello/issues"
       (Some [("title", JStr "Bug"); ("labels", JArr [JStr "bug"; JStr "ui"]);
              ("assignees", JArr [JStr "alice"])])].
Proof. reflexivity. Qed.

Lemma dispatch_workflow_sends_every_input :
  dispatched (gh_dispatch_workflow "octocat" "hello" (inr "ci.yml") "main"
                (Some [("env", "prod"); ("debug", "1")]))
    (constant_transport (refused "no"))
  = [mkRequest POST "/repos/octocat/hello/actions/workflows/ci.yml/dispatches"
       (Some [("ref", JStr "main");
              ("inputs", JObj [("env", JStr "prod"); ("debug", JStr "1")])])].
Proof. reflexivity. Qed.

(** C5 (amended) on three calls: an issue with a body, two labels and an
    empty list of assignees; a pull request and a merge that leave [draft]
    and [merge_method] to their defaults. *)
Lemma optional_payload_fields_witness :
  validate_owner_repo "octocat" "hello" = Return tt
  /\ (exists payload,
        sends (gh_create_issue plain_printer "octocat" "hello" "Bug" (Some "It fails")
                 (Some ["bug"; "ui"]) (Some []))
          (constant_transport (refused "no")) []
          POST "/repos/octocat/hello/issues" payload
        /\ dict_get payload "body" = Some (JStr "It fails")
        /\ dict_get payload "labels" = Some (JArr [JStr "bug"; JStr "ui"])
        /\ dict_get payload "assignees" = None)
  /\ (exists payload,
        sends (gh_create_pr plain_printer "octocat" "hello" "Fix" "fix" "main" None
                 draft_default)
          (constant_transport (refused "no")) []
          POST "/repos/octocat/hello/pulls" payload
        /\ dict_get payload "body" = None
        /\ dict_get payload "draft" = Some (JBool false))
  /\ (exists payload,
        sends (gh_merge_pr "octocat" "hello" 7 merge_method_default None (Some EmptyString))
          (constant_transport (refused "no")) []
          PUT "/repos/octocat/hello/pulls/7/merge" payload
        /\ dict_get payload "merge_method" = Some (JStr "merge")
        /\ dict_get payload "commit_title" = None
        /\ dict_get payload "commit_message" = None).
Proof.
  pose proof (optional_payload_fields plain_printer (constant_transport (refused "no"))
                [] "octocat" "hello" eq_refl) as (Hissue & _ & Hpr & _ & Hmerge & _).
  split; [reflexivity|]. split; [|split].
  - exact (Hissue "Bug" (Some "It fails") (Some ["bug"; "ui"]) (Some [])).
  - exact (Hpr "Fix" "fix" "main" None draft_default).
  - exact (Hmerge 7 merge_method_default None (Some EmptyString)).
Defined.

(** C6 on a transport that answers with a success and no body: a dispatch
    of a workflow with one input, and the deletion of a branch. *)
Lemma empty_body_is_success_witness :
  validate_owner_repo "octocat" "hello" = Return tt
  /\ PyStr.is_empty "old-feature" = false
  /\ (forall req, answers_with (constant_transport (ok JNull) [] req) JNull)
  /\ gh_dispatch_workflow "octocat" "hello" (inr "ci.yml") "main" (Some [("env", "prod")])
       (constant_transport (ok JNull)) []
     = (Return (mkGhResult true JNull None),
        [mkRequest POST "/repos/octocat/hello/actions/workflows/ci.yml/dispatches"
           (Some [("ref", JStr "main"); ("inputs", JObj [("env", JStr "prod")])])])
  /\ gh_delete_branch "octocat" "hello" "old-feature" (constant_transport (ok JNull)) []
     = (Return (mkGhResult true JNull None),
        [mkRequest DELETE "/repos/octocat/hello/git/refs/heads/old-feature" None]).
Proof.
  assert (Ha : forall req, answers_with (constant_transport (ok JNull) [] req) JNull).
  { intros req. split; [reflexivity|]. eexists. split; reflexivity. }
  pose proof (empty_body_is_success (constant_transport (ok JNull)) []
                "octocat" "hello" eq_refl) as [Hdispatch Hdelete].
  split; [reflexivity|]. split; [reflexivity|]. split; [exact Ha|]. split.
  - exact (Hdispatch (inr "ci.yml") "main" (Some [("env", "prod")]) (Ha _)).
  - exact (Hdelete "old-feature" eq_refl (Ha _)).
Defined.

(** C7 seen from a tool: a payload whose [number] decodes to infinity makes
    [gh_get_issue] raise [OverflowError] instead of returning a record. *)
Lemma get_issue_raises_on_infinite_number :
  outcome (gh_get_issue plain_printer "octocat" "hello" 7)
    (constant_transport (ok (JObj [("number", JFloat (S754_infinity false))])))
  = Raise (Builtin OverflowError).
Proof. reflexivity. Qed.

(** C8 as stated fails: an entry that is the text "pull_request" carries no
    field, yet it is left out of the result and not parsed. *)
Lemma list_issues_drops_text_entry :
  outcome (gh_list_issues plain_printer "octocat" "hello" "open" None None 30 1)
    (constant_transport (ok (JArr [JStr "pull_request"])))
  = Return []
  /\ carries_pull_request (JStr "pull_request") = false.
Proof. split; reflexivity. Qed.

Lemma list_issues_excludes_pull_requests_witness :
  validate_owner_repo "octocat" "hello" = Return tt
  /\ Forall (fun item => is_dict item = true) scenario_issue_list
  /\ gh_list_issues plain_printer "octocat" "hello" "open" None None 30 1
       (constant_transport (ok (JArr scenario_issue_list))) []
     = (Return [mkIssueInfo 1 "Bug" "open" (Some "octocat") ["bug"] None],
        [mkRequest GET "/repos/octocat/hello/issues?state=open&per_page=30&page=1" None]).
Proof.
  assert (Hd : Forall (fun item => is_dict item = true) scenario_issue_list).
  { repeat constructor. }
  split; [reflexivity|]. split; [exact Hd|].
  apply (list_issues_excludes_pull_requests plain_printer
           (constant_transport (ok (JArr scenario_issue_list))) []
           "octocat" "hello" "open" None None 30 1 scenario_issue_list eq_refl).
  - split; [reflexivity|]. eexists. split; reflexivity.
  - exact Hd.
Defined.

(** C9 on a search whose text has a space, an ampersand, an equals sign and
    a slash, beside an absent entry, a number and a boolean. *)
Lemma build_url_meets_spec_witness :
  NoDup (map fst [("q", PStr "a b&c=d/e"); ("sort", PNone); ("page", PInt 2);
                  ("draft", PBool false)])
  /\ build_url_spec "/search/issues"
       [("q", PStr "a b&c=d/e"); ("sort", PNone); ("page", PInt 2); ("draft", PBool false)]
     = "/search/issues?q=a+b%26c%3Dd%2Fe&page=2&draft=false"
  /\ build_url "/search/issues"
       [("q", PStr "a b&c=d/e"); ("sort", PNone); ("page", PInt 2); ("draft", PBool false)]
     = build_url_spec "/search/issues"
         [("q", PStr "a b&c=d/e"); ("sort", PNone); ("page", PInt 2);
          ("draft", PBool false)].
Proof.
  assert (Hnd : NoDup (map fst [("q", PStr "a b&c=d/e"); ("sort", PNone);
                                ("page", PInt 2); ("draft", PBool false)])).
  { simpl. repeat constructor; simpl; intuition discriminate. }
  split; [exact Hnd|]. split; [reflexivity|].
  apply (proj1 (build_url_meets_spec "/search/issues"
                  [("q", PStr "a b&c=d/e"); ("sort", PNone); ("page", PInt 2);
                   ("draft", PBool false)] Hnd)).
Defined.

(** C10 on a transport that answers a single-resource read with an array. *)
Lemma wrong_shape_gives_defaults_witness :
  validate_owner_repo "octocat" "hello" = Return tt
  /\ is_dict (JArr []) = false
  /\ gh_get_repo plain_printer "octocat" "hello" (constant_transport (ok (JArr []))) []
     = (Return default_repo, [mkRequest GET "/repos/octocat/hello" None]).
Proof.
  split; [reflexivity|]. split; [reflexivity|].
  apply (proj1 (proj2 (wrong_shape_gives_defaults plain_printer
                         (constant_transport (ok (JArr []))) [] "octocat" "hello"
                         (JArr []) eq_refl eq_refl))).
  split; [reflexivity|]. eexists. split; reflexivity.
Defined.

(* ================================================================== *)
(** * The further properties on examples                                 *)
(* ================================================================== *)

Lemma constant_ok_answers (payload : JSON) (log : list HttpRequest) (req : HttpRequest) :
  answers_with (constant_transport (ok payload) log req) payload.
Proof. split; [reflexivity|]. eexists. split; reflexivity. Defined.

Lemma accepted_names_are_plain_witness :
  (validate_owner "octo-cat.1" = Return tt \/ validate_repo "octo-cat.1" = Return tt)
  /\ PyStr.contains_char (PyStr.ch 47) "octo-cat.1" = false.
Proof.
  assert (H : validate_owner "octo-cat.1" = Return tt
              \/ validate_repo "octo-cat.1" = Return tt) by (left; reflexivity).
  split; [exact H|].
  apply (proj2 (accepted_names_are_plain "octo-cat.1" H)).
Defined.

Lemma transport_failure_is_runtime_error_witness :
  validate_owner_repo "octocat" "hello" = Return tt
  /\ refuses (constant_transport (refused "Not Found") []
                (mkRequest GET "/repos/octocat/hello" None))
  /\ gh_get_repo plain_printer "octocat" "hello" (constant_transport (refused "Not Found")) []
     = (Raise (RuntimeError "Not Found"), [mkRequest GET "/repos/octocat/hello" None]).
Proof.
  assert (Hr : refuses (constant_transport (refused "Not Found") []
                          (mkRequest GET "/repos/octocat/hello" None)))
    by (left; reflexivity).
  split; [reflexivity|]. split; [exact Hr|].
  apply (proj1 (proj2 (transport_failure_is_runtime_error plain_printer
                         (constant_transport (refused "Not Found")) []
                         "octocat" "hello" eq_refl)) Hr).
Defined.

Lemma raw_result_tools_pass_through_witness :
  validate_owner_repo "octocat" "hello" = Return tt
  /\ gh_rerun_workflow "octocat" "hello" 42 (constant_transport (refused "Forbidden")) []
     = (Return (mkGhResult false JNull (Some "Forbidden")),
        [mkRequest POST "/repos/octocat/hello/actions/runs/42/rerun" None]).
Proof.
  split; [reflexivity|].
  apply (proj1 (proj2 (raw_result_tools_pass_through
                         (constant_transport (refused "Forbidden")) []
                         "octocat" "hello" eq_refl)) 42).
Defined.

Lemma delete_branch_guard_witness :
  validate_owner_repo "octocat" "hello" = Return tt
  /\ gh_delete_branch "octocat" "hello" EmptyString (constant_transport (ok JNull)) []
     = (Raise (ValueError "Branch name cannot be empty"), []).
Proof.
  split; [reflexivity|].
  apply (delete_branch_guard (constant_transport (ok JNull)) [] "octocat" "hello"
           EmptyString eq_refl).
Defined.

Lemma diagnosis_needs_a_selector_witness :
  validate_owner_repo "octocat" "hello" = Return tt
  /\ truthy_int (Some 0) = None
  /\ truthy_text (Some EmptyString) = None
  /\ gh_ci_diagnosis plain_printer "octocat" "hello" (Some 0) (Some EmptyString)
       scenario_transport []
     = (Raise (RuntimeError "Provide either run_id or branch"), []).
Proof.
  split; [reflexivity|]. split; [reflexivity|]. split; [reflexivity|].
  apply (diagnosis_needs_a_selector plain_printer scenario_transport [] "octocat" "hello"
           (Some 0) (Some EmptyString) eq_refl eq_refl eq_refl).
Defined.

(** A run fetched by the id 7 whose payload says 42: the jobs of 42 are
    requested. *)
Lemma jobs_follow_the_payload_id_witness :
  validate_owner_repo "octocat" "hello" = Return tt
  /\ 7 <> 0
  /\ bind (get (dict_or_empty scenario_run) "id") (fun v => _int v 0) = Return 42
  /\ snd (gh_ci_diagnosis plain_printer "octocat" "hello" (Some 7) None
            (constant_transport (ok scenario_run)) [])
     = [mkRequest GET "/repos/octocat/hello/actions/runs/7" None;
        mkRequest GET "/repos/octocat/hello/actions/runs/42/jobs" None].
Proof.
  assert (Hn : 7 <> 0) by discriminate.
  split; [reflexivity|]. split; [exact Hn|]. split; [reflexivity|].
  apply (proj1 (jobs_follow_the_payload_id plain_printer
                  (constant_transport (ok scenario_run)) [] "octocat" "hello" 7 42 None
                  scenario_run eq_refl Hn (constant_ok_answers _ _ _) eq_refl)).
Defined.

Lemma branch_without_runs_witness :
  validate_owner_repo "octocat" "hello" = Return tt
  /\ truthy_int None = None
  /\ PyStr.is_empty "main" = false
  /\ items_under (JObj [("total_count", JInt 0)]) "workflow_runs" = Return (JArr [])
  /\ truthy (JArr []) = false
  /\ gh_ci_diagnosis plain_printer "octocat" "hello" None (Some "main")
       (constant_transport (ok (JObj [("total_count", JInt 0)]))) []
     = (Raise (RuntimeError "No workflow runs found for branch 'main'"),
        [mkRequest GET "/repos/octocat/hello/actions/runs?branch=main&per_page=1" None]).
Proof.
  repeat (split; [reflexivity|]).
  apply (branch_without_runs plain_printer
           (constant_transport (ok (JObj [("total_count", JInt 0)]))) []
           "octocat" "hello" "main" None (JObj [("total_count", JInt 0)]) (JArr [])
           eq_refl eq_refl eq_refl (constant_ok_answers _ _ _) eq_refl eq_refl).
Defined.

Lemma _int_raises_only_on_infinity_witness :
  _int (JFloat (S754_infinity true)) 3 = Raise (Builtin OverflowError)
  /\ Builtin OverflowError = Builtin OverflowError
  /\ exists negative, JFloat (S754_infinity true) = JFloat (S754_infinity negative).
Proof.
  split; [reflexivity|].
  apply (_int_raises_only_on_infinity (JFloat (S754_infinity true)) 3
           (Builtin OverflowError) eq_refl).
Defined.

Lemma _parse_issue_failures_witness :
  _parse_issue plain_printer (JArr []) = Raise (Builtin AttributeError)
  /\ ((is_dict (JArr []) = false /\ Builtin AttributeError = Builtin AttributeError)
      \/ exists d negative,
          JArr [] = JObj d
          /\ dict_get d "number" = Some (JFloat (S754_infinity negative))
          /\ Builtin AttributeError = Builtin OverflowError).
Proof.
  split; [reflexivity|].
  apply (_parse_issue_failures plain_printer (JArr []) (Builtin AttributeError) eq_refl).
Defined.

Lemma example_commits_are_objects :
  Forall (fun item => is_dict item = true) example_commits.
Proof. repeat constructor. Defined.

Lemma list_commits_reads_every_object_witness :
  validate_owner_repo "octocat" "hello" = Return tt
  /\ Forall (fun item => is_dict item = true) example_commits
  /\ gh_list_commits plain_printer "octocat" "hello" (Some "main") None None 30 1
       (constant_transport (ok (JArr example_commits))) []
     = (Return [mkCommitInfo "a1b2c3" "Fix the build" (Some "octocat")
                  (Some "2026-01-02T03:04:05Z");
                mkCommitInfo "d4e5f6" EmptyString None None],
        [mkRequest GET "/repos/octocat/hello/commits?sha=main&per_page=30&page=1" None]).
Proof.
  split; [reflexivity|]. split; [exact example_commits_are_objects|].
  apply (list_commits_reads_every_object plain_printer
           (constant_transport (ok (JArr example_commits))) [] "octocat" "hello"
           (Some "main") None None 30 1 example_commits eq_refl
           (constant_ok_answers _ _ _) example_commits_are_objects).
Defined.

Lemma example_statuses_are_objects :
  Forall (fun item => is_dict item = true) example_statuses.
Proof. repeat constructor. Defined.

Lemma list_commit_statuses_reads_every_object_witness :
  validate_owner_repo "octocat" "hello" = Return tt
  /\ validate_ref "main" = Return tt
  /\ Forall (fun item => is_dict item = true) example_statuses
  /\ gh_list_commit_statuses plain_printer "octocat" "hello" "main"
       (constant_transport (ok (JArr example_statuses))) []
     = (Return [mkCommitStatusInfo "success" "ci/build" None],
        [mkRequest GET "/repos/octocat/hello/commits/main/statuses" None]).
Proof.
  split; [reflexivity|]. split; [reflexivity|].
  split; [exact example_statuses_are_objects|].
  apply (list_commit_statuses_reads_every_object plain_printer
           (constant_transport (ok (JArr example_statuses))) [] "octocat" "hello" "main"
           example_statuses eq_refl eq_refl (constant_ok_answers _ _ _)
           example_statuses_are_objects).
Defined.

Lemma flat_lists_default_to_empty_witness :
  validate_owner_repo "octocat" "hello" = Return tt
  /\ is_list (JObj [("message", JStr "hello")]) = false
  /\ gh_list_branches plain_printer "octocat" "hello" 30 1
       (constant_transport (ok (JObj [("message", JStr "hello")]))) []
     = (Return [],
        [mkRequest GET "/repos/octocat/hello/branches?per_page=30&page=1" None]).
Proof.
  split; [reflexivity|]. split; [reflexivity|].
  apply (proj1 (flat_lists_default_to_empty plain_printer
                  (constant_transport (ok (JObj [("message", JStr "hello")]))) []
                  "octocat" "hello" (JObj [("message", JStr "hello")]) eq_refl eq_refl)
           30 1 (constant_ok_answers _ _ _)).
Defined.

(** X17 on an object that has a count and a list of workflows, but neither
    [workflow_runs] nor [check_runs]. *)
Lemma nested_lists_default_to_empty_witness :
  validate_owner_repo "octocat" "hello" = Return tt
  /\ validate_ref "main" = Return tt
  /\ dict_get [("total_count", JInt 1); ("workflows", JArr [JObj [("id", JInt 5)]])]
       "workflow_runs" = None
  /\ dict_get [("total_count", JInt 1); ("workflows", JArr [JObj [("id", JInt 5)]])]
       "check_runs" = None
  /\ gh_list_workflow_runs plain_printer "octocat" "hello" (Some 5) 10
       (constant_transport
          (ok (JObj [("total_count", JInt 1);
                     ("workflows", JArr [JObj [("id", JInt 5)]])]))) []
     = (Return [],
        [mkRequest GET "/repos/octocat/hello/actions/workflows/5/runs?per_page=10" None])
  /\ gh_list_check_runs plain_printer "octocat" "hello" "main" 30 1
       (constant_transport
          (ok (JObj [("total_count", JInt 1);
                     ("workflows", JArr [JObj [("id", JInt 5)]])]))) []
     = (Return [],
        [mkRequest GET "/repos/octocat/hello/commits/main/check-runs?per_page=30&page=1"
           None]).
Proof.
  pose proof (nested_lists_default_to_empty plain_printer
                (constant_transport
                   (ok (JObj [("total_count", JInt 1);
                              ("workflows", JArr [JObj [("id", JInt 5)]])]))) []
                "octocat" "hello"
                (JObj [("total_count", JInt 1);
                       ("workflows", JArr [JObj [("id", JInt 5)]])]) eq_refl)
    as (_ & Hruns & Hchecks).
  split; [reflexivity|]. split; [reflexivity|].
  split; [reflexivity|]. split; [reflexivity|]. split.
  - apply (Hruns (Some 5) 10).
    + right. eexists. split; reflexivity.
    + apply constant_ok_answers.
  - apply (Hchecks "main" 30 1 eq_refl).
    + right. eexists. split; reflexivity.
    + apply constant_ok_answers.
Defined.

Lemma null_entries_raise_type_error_witness :
  validate_owner_repo "octocat" "hello" = Return tt
  /\ dict_get [("total_count", JInt 0); ("workflows", JNull)] "workflows" = Some JNull
  /\ gh_list_workflows plain_printer "octocat" "hello"
       (constant_transport (ok (JObj [("total_count", JInt 0); ("workflows", JNull)]))) []
     = (Raise (Builtin TypeError),
        [mkRequest GET "/repos/octocat/hello/actions/workflows" None]).
Proof.
  split; [reflexivity|]. split; [reflexivity|].
  apply (proj1 (null_entries_raise_type_error plain_printer
                  (constant_transport
                     (ok (JObj [("total_count", JInt 0); ("workflows", JNull)]))) []
                  "octocat" "hello" [("total_count", JInt 0); ("workflows", JNull)]
                  eq_refl)
           eq_refl (constant_ok_answers _ _ _)).
Defined.

Lemma search_hands_items_back_witness :
  _int (subfield example_search_payload "total_count") 0 = Return 2
  /\ gh_search_code "addClass" 30 1 (constant_transport (ok example_search_payload)) []
     = (Return (mkSearchResult 2 true [JObj [("path", JStr "README.md")]; JInt 7]),
        [mkRequest GET "/search/code?q=addClass&per_page=30&page=1" None]).
Proof.
  split; [reflexivity|].
  apply (proj1 (search_hands_items_back (constant_transport (ok example_search_payload))
                  [] "addClass" 30 1 example_search_payload 2
                  (constant_ok_answers _ _ _) eq_refl)).
Defined.

Lemma _parse_job_steps_witness :
  _parse_job plain_printer (JObj example_job)
  = Return (mkWorkflowJobInfo 2 "test" EmptyString None
              [mkWorkflowJobStep "checkout" EmptyString None 1;
               mkWorkflowJobStep "run-tests" EmptyString None 2])
  /\ length [mkWorkflowJobStep "checkout" EmptyString None 1;
             mkWorkflowJobStep "run-tests" EmptyString None 2]
     = length (list_or_empty (field example_job "steps")).
Proof.
  split; [reflexivity|].
  apply (_parse_job_steps plain_printer example_job
           (mkWorkflowJobInfo 2 "test" EmptyString None
              [mkWorkflowJobStep "checkout" EmptyString None 1;
               mkWorkflowJobStep "run-tests" EmptyString None 2])
           eq_refl).
Defined.

Lemma update_issue_sends_empty_payload_witness :
  validate_owner_repo "octocat" "hello" = Return tt
  /\ sends (gh_update_issue plain_printer "octocat" "hello" 5 None None None None None)
       (constant_transport (refused "no")) []
       PATCH (repos_path "octocat" "hello" ++ "/issues/" ++ PyStr.of_Z 5) [].
Proof.
  split; [reflexivity|].
  apply (proj1 (update_issue_sends_empty_payload plain_printer
                  (constant_transport (refused "no")) [] "octocat" "hello" 5 eq_refl)).
Defined.

Lemma create_pr_required_fields_witness :
  validate_owner_repo "octocat" "hello" = Return tt
  /\ exists payload,
      sends (gh_create_pr plain_printer "octocat" "hello" "Add docs" "docs" "main" None
               false)
        (constant_transport (refused "no")) []
        POST (repos_path "octocat" "hello" ++ "/pulls") payload
      /\ dict_get payload "title" = Some (JStr "Add docs")
      /\ dict_get payload "head" = Some (JStr "docs")
      /\ dict_get payload "base" = Some (JStr "main")
      /\ dict_get payload "draft" = Some (JBool false).
Proof.
  split; [reflexivity|].
  apply (create_pr_required_fields plain_printer (constant_transport (refused "no")) []
           "octocat" "hello" "Add docs" "docs" "main" None false eq_refl).
Defined.

Lemma listing_tools_validate_first_witness :
  validate_owner_repo "../etc" "hello"
  = Raise (ValueError "Invalid GitHub owner: '../etc'")
  /\ gh_list_workflows plain_printer "../etc" "hello" scenario_transport []
     = (Raise (ValueError "Invalid GitHub owner: '../etc'"), []).
Proof.
  split; [reflexivity|].
  apply (listing_tools_validate_first plain_printer scenario_transport [] "../etc" "hello"
           (ValueError "Invalid GitHub owner: '../etc'") eq_refl).
Defined.
